(** * Server Guardian: a shallow embedding of [server_guardian.py]

    The guardian is one object ([ServerGuardian]) driven by an endless loop
    ([main_loop]).  Each iteration samples the interface byte counters and the
    established connections, keeps the per-day accounting, evaluates two
    circuit breakers and advances a two-state throttle machine.

    The embedding threads the object's fields through a small monad that also
    records the observable actions of the script (lines printed, shell
    commands run, files read, the shutdown log) and models [sys.exit] and an
    uncaught exception as abrupt results that skip the rest of the
    computation. *)

From Stdlib Require Import ZArith QArith Lqa Lia List.
From stdpp Require Import base gmap sets list strings.
Import ListNotations.

Local Open Scope Z_scope.

(** ** Configuration

    The module-level constants of the script ("User Configuration").  They
    are gathered in a record so that the results below hold for every choice
    of the operator; [user_configuration] carries the values of the source. *)

Record Config := {
  INTERFACE : string;
  MAX_CONCURRENT_IPS : Z;
  MAX_DAILY_UNIQUE_IPS : Z;
  MAX_SPEED_LIMIT : Z;
  THROTTLE_SPEED_LIMIT : Z;
  TRIGGER_SPEED : Z;
  TRIGGER_DURATION : Z;
  PUNISH_DURATION : Z;
  MAX_DAILY_TRAFFIC : Z;
  TRAFFIC_RESET_HOUR : Z
}.

Definition user_configuration : Config := {|
  INTERFACE := "eth0";
  MAX_CONCURRENT_IPS := 8;
  MAX_DAILY_UNIQUE_IPS := 15;
  MAX_SPEED_LIMIT := 150;
  THROTTLE_SPEED_LIMIT := 60;
  TRIGGER_SPEED := 100;
  TRIGGER_DURATION := 10;
  PUNISH_DURATION := 900;
  MAX_DAILY_TRAFFIC := 100;
  TRAFFIC_RESET_HOUR := 0
|}.

(** ** Data *)

(** [datetime.date]: only compared for (in)equality by the script. *)
Record date := { year : Z; month : Z; day : Z }.

#[global] Instance date_eq_dec : EqDecision date.
Proof. solve_decision. Defined.

(** [current_state] holds one of the two strings "NORMAL" and "THROTTLED". *)
Inductive State := NORMAL | THROTTLED.

#[global] Instance State_eq_dec : EqDecision State.
Proof. solve_decision. Defined.

(** The instance fields set by [__init__].  Integers are unbounded, as in
    Python.

    Wall-clock readings ([time.time()]), the rate [current_speed_mbps] and the
    volume [daily_gb] are Python floats; they are modelled by exact rationals.
    For the two divisions this loses nothing at the thresholds of the script:
    Python's [int / int] is correctly rounded, rounding is monotone, and both
    100 and the least quotients above it (100 + 2^-20 and 100 + 2^-30) are
    floats, so [n / 2^k > 100] holds for the float exactly when it holds for
    the rational.  For the clock the model ignores the rounding of
    [now + PUNISH_DURATION]. *)
Record ServerGuardian := {
  punish_end_time : Q;
  high_load_duration : Z;
  current_state : State;
  daily_ips : gset string;
  daily_traffic_bytes : Z;
  last_check_date : date
}.

(** Shell commands handed to [run_cmd]. *)
Inductive Command :=
| IptablesDelete (limit : Z)
    (* iptables -D INPUT -p tcp --syn -m connlimit --connlimit-above limit -j REJECT *)
| IptablesAppend (limit : Z)
    (* iptables -A INPUT -p tcp --syn -m connlimit --connlimit-above limit -j REJECT *)
| TcQdiscDel (dev : string)
    (* tc qdisc del dev dev root *)
| TcQdiscAddTbf (dev : string) (speed_mbit : Z)
    (* tc qdisc add dev dev root tbf rate speed_mbit mbit burst 32kbit latency 400ms *)
| ShutdownNow.
    (* shutdown -h now *)

(** The reason string given to [shutdown_server]; the formatted numbers are
    kept as arguments. *)
Inductive Reason :=
| TrafficOverLimit (daily_gb : Q) (limit : Z)
| UniqueIpsOverLimit (count : nat) (limit : Z).

(** Lines written to standard output. *)
Inductive Message :=
| MsgNeedRoot
| MsgInitLimit (limit : Z)
| MsgTcAdjusted (speed_mbit : Z)
| MsgStatsError
| MsgReset
| MsgDanger (reason : Reason)
| MsgShuttingDown
| MsgStarted (dev : string)
| MsgRecover
| MsgPunish (duration speed : Z).

Inductive Counter := rx_bytes | tx_bytes.

(** Observable actions, in the order in which the script performs them. *)
Inductive Event :=
| Print (m : Message)
| RunCmd (c : Command)
| Sleep (seconds : Z)
| ReadStatistics (dev : string) (c : Counter)
| Netstat
| AppendShutdownLog (reason : Reason).

(** ** The monad: object state, action log, [sys.exit], uncaught exceptions *)

(** Exceptions that leave the script uncaught.  The model has one: the
    [OSError] of a failed append to the shutdown log. *)
Inductive Exception := OSError.

Inductive Result (A : Type) :=
| Return (a : A)
| SystemExit (code : Z)
| Raise (e : Exception).
Arguments Return {A} a.
Arguments SystemExit {A} code.
Arguments Raise {A} e.

Definition M (A : Type) : Type :=
  ServerGuardian -> Result A * ServerGuardian * list Event.

#[global] Instance M_ret : MRet M := fun A a self => (Return a, self, []).

#[global] Instance M_bind : MBind M := fun A B k m self =>
  match m self with
  | (Return a, self1, log1) =>
      match k a self1 with
      | (r, self2, log2) => (r, self2, log1 ++ log2)
      end
  | (SystemExit code, self1, log1) => (SystemExit code, self1, log1)
  | (Raise e, self1, log1) => (Raise e, self1, log1)
  end.

Definition get_self : M ServerGuardian := fun self => (Return self, self, []).
Definition modify (f : ServerGuardian -> ServerGuardian) : M unit :=
  fun self => (Return tt, f self, []).
Definition emit (e : Event) : M unit := fun self => (Return tt, self, [e]).
Definition print (m : Message) : M unit := emit (Print m).
Definition sys_exit {A} (code : Z) : M A := fun self => (SystemExit code, self, []).
Definition raise {A} (e : Exception) : M A := fun self => (Raise e, self, []).

(** [for x in l: body x] *)
Fixpoint for_each {A} (l : list A) (body : A -> M unit) : M unit :=
  match l with
  | [] => mret tt
  | x :: rest => body x ;; for_each rest body
  end.

Definition result_of {A} (o : Result A * ServerGuardian * list Event) : Result A :=
  fst (fst o).
Definition state_of {A} (o : Result A * ServerGuardian * list Event) : ServerGuardian :=
  snd (fst o).
Definition log_of {A} (o : Result A * ServerGuardian * list Event) : list Event :=
  snd o.

(** Field updates. *)
Definition set_punish_end_time (v : Q) (self : ServerGuardian) :=
  {| punish_end_time := v;
     high_load_duration := high_load_duration self;
     current_state := current_state self;
     daily_ips := daily_ips self;
     daily_traffic_bytes := daily_traffic_bytes self;
     last_check_date := last_check_date self |}.
Definition set_high_load_duration (v : Z) (self : ServerGuardian) :=
  {| punish_end_time := punish_end_time self;
     high_load_duration := v;
     current_state := current_state self;
     daily_ips := daily_ips self;
     daily_traffic_bytes := daily_traffic_bytes self;
     last_check_date := last_check_date self |}.
Definition set_current_state (v : State) (self : ServerGuardian) :=
  {| punish_end_time := punish_end_time self;
     high_load_duration := high_load_duration self;
     current_state := v;
     daily_ips := daily_ips self;
     daily_traffic_bytes := daily_traffic_bytes self;
     last_check_date := last_check_date self |}.
Definition set_daily_ips (v : gset string) (self : ServerGuardian) :=
  {| punish_end_time := punish_end_time self;
     high_load_duration := high_load_duration self;
     current_state := current_state self;
     daily_ips := v;
     daily_traffic_bytes := daily_traffic_bytes self;
     last_check_date := last_check_date self |}.
Definition set_daily_traffic_bytes (v : Z) (self : ServerGuardian) :=
  {| punish_end_time := punish_end_time self;
     high_load_duration := high_load_duration self;
     current_state := current_state self;
     daily_ips := daily_ips self;
     daily_traffic_bytes := v;
     last_check_date := last_check_date self |}.
Definition set_last_check_date (v : date) (self : ServerGuardian) :=
  {| punish_end_time := punish_end_time self;
     high_load_duration := high_load_duration self;
     current_state := current_state self;
     daily_ips := daily_ips self;
     daily_traffic_bytes := daily_traffic_bytes self;
     last_check_date := v |}.

(** Comparison of floats, on their rational model. *)
Definition Qgtb (x y : Q) : bool :=
  match Qcompare x y with Gt => true | _ => false end.

(** ** What one loop iteration reads from its environment *)

Record TickInput := {
  today : date;
    (* datetime.date.today(), read by check_daily_reset *)
  rx : option Z;
  tx : option Z;
    (* the two counter files parsed by int(); None when opening, reading or
       parsing raises *)
  netstat : option (list string);
    (* output.decode().strip().split('\n') of the netstat pipeline; None when
       any of these steps raises *)
  clock : Q;
    (* time.time() *)
  log_append : bool
    (* whether the append to /var/log/server_shutdown.log succeeds if
       shutdown_server attempts it; false when open() or write() raises
       OSError, in which case no entry is taken to be written *)
}.

(** ** The methods of [ServerGuardian] *)

Section Guardian.
Variable cfg : Config.

(** [__init__]: the fields are assigned first, then the privilege check. *)
Definition __init__ (euid : Z) (date_today : date) : M unit :=
  modify (fun _ =>
    {| punish_end_time := 0%Q;
       high_load_duration := 0;
       current_state := NORMAL;
       daily_ips := ∅;
       daily_traffic_bytes := 0;
       last_check_date := date_today |}) ;;
  if negb (euid =? 0) then
    print MsgNeedRoot ;;
    sys_exit 1
  else mret tt.

(** [run_cmd]: a failing command ([CalledProcessError]) is ignored. *)
Definition run_cmd (cmd : Command) : M unit := emit (RunCmd cmd).

Definition init_iptables : M unit :=
  print (MsgInitLimit (MAX_CONCURRENT_IPS cfg)) ;;
  run_cmd (IptablesDelete (MAX_CONCURRENT_IPS cfg)) ;;
  run_cmd (IptablesAppend (MAX_CONCURRENT_IPS cfg)).

Definition set_tc_speed (speed_mbit : Z) : M unit :=
  run_cmd (TcQdiscDel (INTERFACE cfg)) ;;
  run_cmd (TcQdiscAddTbf (INTERFACE cfg) speed_mbit) ;;
  print (MsgTcAdjusted speed_mbit).

(** [get_current_traffic]: any exception in the [try] block is caught,
    reported on standard output, and the method returns 0. *)
Definition get_current_traffic (rx_read tx_read : option Z) : M Z :=
  emit (ReadStatistics (INTERFACE cfg) rx_bytes) ;;
  match rx_read with
  | Some rx =>
      emit (ReadStatistics (INTERFACE cfg) tx_bytes) ;;
      match tx_read with
      | Some tx => mret (rx + tx)
      | None => print MsgStatsError ;; mret 0
      end
  | None => print MsgStatsError ;; mret 0
  end.

(** [get_active_ips]: the bare [except] turns every failure into []. *)
Definition get_active_ips (output : option (list string)) : M (list string) :=
  emit Netstat ;;
  match output with
  | Some ips => mret (List.filter (fun ip => negb (String.eqb ip EmptyString)) ips)
  | None => mret []
  end.

Definition check_daily_reset (date_today : date) : M unit :=
  self ← get_self;
  if negb (bool_decide (date_today = last_check_date self)) then
    print MsgReset ;;
    modify (set_daily_ips ∅) ;;
    modify (set_daily_traffic_bytes 0) ;;
    modify (set_last_check_date date_today)
  else mret tt.

(** [shutdown_server]: two lines on standard output, one line appended to
    /var/log/server_shutdown.log (its timestamp is left out), the shutdown
    command, then [sys.exit(0)].  The append is outside any [try]: when it
    fails, its [OSError] leaves the method before the shutdown command, and
    nothing up to [__main__] catches it. *)
Definition shutdown_server (append_ok : bool) (reason : Reason) : M unit :=
  print (MsgDanger reason) ;;
  print MsgShuttingDown ;;
  (if append_ok then emit (AppendShutdownLog reason) else raise OSError) ;;
  run_cmd ShutdownNow ;;
  sys_exit 0.

(** Step 5 of the loop body ("动态降速逻辑"), given [now = time.time()]. *)
Definition throttle_logic (now : Q) (current_speed_mbps : Q) : M unit :=
  self ← get_self;
  match current_state self with
  | THROTTLED =>
      let remaining := (punish_end_time self - now)%Q in
      if Qle_bool remaining 0 then
        print MsgRecover ;;
        set_tc_speed (MAX_SPEED_LIMIT cfg) ;;
        modify (set_current_state NORMAL) ;;
        modify (set_high_load_duration 0)
      else mret tt
  | NORMAL =>
      if Qgtb current_speed_mbps (inject_Z (TRIGGER_SPEED cfg)) then
        modify (fun s => set_high_load_duration (high_load_duration s + 1) s) ;;
        self ← get_self;
        if high_load_duration self >=? TRIGGER_DURATION cfg then
          print (MsgPunish (TRIGGER_DURATION cfg) (TRIGGER_SPEED cfg)) ;;
          set_tc_speed (THROTTLE_SPEED_LIMIT cfg) ;;
          modify (set_current_state THROTTLED) ;;
          modify (set_punish_end_time (now + inject_Z (PUNISH_DURATION cfg))%Q)
        else mret tt
      else
        modify (set_high_load_duration 0)
  end.

(** One iteration of [while True] in [main_loop]; [last_traffic] is the
    local variable of that name and the result is its new value. *)
Definition loop_body (last_traffic : Z) (inp : TickInput) : M Z :=
  (* 1 *)
  check_daily_reset (today inp) ;;
  (* 2 *)
  emit (Sleep 1) ;;
  current_traffic ← get_current_traffic (rx inp) (tx inp);
  let diff_traffic := current_traffic - last_traffic in
  modify (fun s => set_daily_traffic_bytes (daily_traffic_bytes s + diff_traffic) s) ;;
  let current_speed_mbps := ((diff_traffic * 8) # (1024 * 1024))%Q in
  (* 3 *)
  self ← get_self;
  let daily_gb := (daily_traffic_bytes self # (1024 * 1024 * 1024))%Q in
  (if Qgtb daily_gb (inject_Z (MAX_DAILY_TRAFFIC cfg)) then
     shutdown_server (log_append inp)
       (TrafficOverLimit daily_gb (MAX_DAILY_TRAFFIC cfg))
   else mret tt) ;;
  (* 4 *)
  active_ips ← get_active_ips (netstat inp);
  for_each active_ips (fun ip =>
    modify (fun s => set_daily_ips ({[ ip ]} ∪ daily_ips s) s)) ;;
  self ← get_self;
  (if Z.of_nat (size (daily_ips self)) >? MAX_DAILY_UNIQUE_IPS cfg then
     shutdown_server (log_append inp)
       (UniqueIpsOverLimit (size (daily_ips self)) (MAX_DAILY_UNIQUE_IPS cfg))
   else mret tt) ;;
  (* 5 *)
  throttle_logic (clock inp) current_speed_mbps ;;
  mret current_traffic.

(** The loop, unrolled over the inputs of its first iterations. *)
Fixpoint iterate (last_traffic : Z) (inputs : list TickInput) : M Z :=
  match inputs with
  | [] => mret last_traffic
  | inp :: rest =>
      last_traffic' ← loop_body last_traffic inp;
      iterate last_traffic' rest
  end.

(** [main_loop]: the start-up actions, then the loop. *)
Definition main_loop (rx0 tx0 : option Z) (inputs : list TickInput) : M Z :=
  init_iptables ;;
  set_tc_speed (MAX_SPEED_LIMIT cfg) ;;
  last_traffic ← get_current_traffic rx0 tx0;
  print (MsgStarted (INTERFACE cfg)) ;;
  iterate last_traffic inputs.

(** The [__main__] block. *)
Definition program (euid : Z) (date_today : date) (rx0 tx0 : option Z)
    (inputs : list TickInput) : M Z :=
  __init__ euid date_today ;;
  main_loop rx0 tx0 inputs.

End Guardian.

(** ** Vocabulary for the statements *)

(** The value returned by [get_current_traffic] for given read outcomes. *)
Definition sample_traffic (inp : TickInput) : Z :=
  match rx inp, tx inp with
  | Some r, Some t => r + t
  | _, _ => 0
  end.

(** The list returned by [get_active_ips] for a given pipeline outcome. *)
Definition sample_ips (inp : TickInput) : list string :=
  match netstat inp with
  | Some ips => List.filter (fun ip => negb (String.eqb ip EmptyString)) ips
  | None => []
  end.

(** The daily record once [check_daily_reset] has seen the date [d]. *)
Definition rolled (d : date) (self : ServerGuardian) : ServerGuardian :=
  if decide (d = last_check_date self) then self
  else set_last_check_date d (set_daily_traffic_bytes 0 (set_daily_ips ∅ self)).

(** The byte delta of an iteration and the rate derived from it. *)
Definition diff_traffic (last_traffic : Z) (inp : TickInput) : Z :=
  sample_traffic inp - last_traffic.
Definition speed_mbps (last_traffic : Z) (inp : TickInput) : Q :=
  ((diff_traffic last_traffic inp * 8) # (1024 * 1024))%Q.

(** Daily total and unique-address set once the iteration's observations
    are absorbed. *)
Definition total_bytes (last_traffic : Z) (inp : TickInput) (self : ServerGuardian) : Z :=
  daily_traffic_bytes (rolled (today inp) self) + diff_traffic last_traffic inp.
Definition total_gb (last_traffic : Z) (inp : TickInput) (self : ServerGuardian) : Q :=
  (total_bytes last_traffic inp self # (1024 * 1024 * 1024))%Q.
Definition unique_ips (inp : TickInput) (self : ServerGuardian) : gset string :=
  list_to_set (sample_ips inp) ∪ daily_ips (rolled (today inp) self).
Definition unique_count (inp : TickInput) (self : ServerGuardian) : nat :=
  size (unique_ips inp self).

Definition traffic_over (cfg : Config) (last_traffic : Z) (inp : TickInput)
    (self : ServerGuardian) : Prop :=
  (inject_Z (MAX_DAILY_TRAFFIC cfg) < total_gb last_traffic inp self)%Q.
Definition ips_over (cfg : Config) (inp : TickInput) (self : ServerGuardian) : Prop :=
  MAX_DAILY_UNIQUE_IPS cfg < Z.of_nat (unique_count inp self).

(** The rate is above the trigger threshold. *)
Definition exceeds (cfg : Config) (speed : Q) : Prop :=
  (inject_Z (TRIGGER_SPEED cfg) < speed)%Q.

(** The throttle machine fed with a sequence of (clock, rate) samples. *)
Definition feed (cfg : Config) (samples : list (Q * Q)) : M unit :=
  for_each samples (fun s => throttle_logic cfg (fst s) (snd s)).

(** Log fragments. *)
Definition tc_log (cfg : Config) (speed_mbit : Z) : list Event :=
  [RunCmd (TcQdiscDel (INTERFACE cfg));
   RunCmd (TcQdiscAddTbf (INTERFACE cfg) speed_mbit);
   Print (MsgTcAdjusted speed_mbit)].
Definition shutdown_log (reason : Reason) : list Event :=
  [Print (MsgDanger reason); Print MsgShuttingDown;
   AppendShutdownLog reason; RunCmd ShutdownNow].
Definition failed_shutdown_log (reason : Reason) : list Event :=
  [Print (MsgDanger reason); Print MsgShuttingDown].

(** How a call of [shutdown_server] ends, and what it has done by then,
    according to the outcome of the append. *)
Definition shutdown_result {A} (append_ok : bool) : Result A :=
  if append_ok then SystemExit 0 else Raise OSError.
Definition shutdown_trace (append_ok : bool) (reason : Reason) : list Event :=
  if append_ok then shutdown_log reason else failed_shutdown_log reason.
Definition reset_log (d : date) (self : ServerGuardian) : list Event :=
  if decide (d = last_check_date self) then [] else [Print MsgReset].
Definition read_log (cfg : Config) (inp : TickInput) : list Event :=
  match rx inp, tx inp with
  | Some _, Some _ =>
      [ReadStatistics (INTERFACE cfg) rx_bytes; ReadStatistics (INTERFACE cfg) tx_bytes]
  | Some _, None =>
      [ReadStatistics (INTERFACE cfg) rx_bytes; ReadStatistics (INTERFACE cfg) tx_bytes;
       Print MsgStatsError]
  | None, _ =>
      [ReadStatistics (INTERFACE cfg) rx_bytes; Print MsgStatsError]
  end.

(** Counting the entries of the shutdown log and the shutdown commands. *)
Definition is_shutdown_entry (e : Event) : bool :=
  match e with AppendShutdownLog _ => true | _ => false end.
Definition is_shutdown_cmd (e : Event) : bool :=
  match e with RunCmd ShutdownNow => true | _ => false end.
Definition count (p : Event -> bool) (log : list Event) : nat :=
  length (List.filter p log).

(** The computation ended in [sys.exit]; in an uncaught exception; in
    either. *)
Definition exited {A} (r : Result A) : Prop :=
  match r with SystemExit _ => True | _ => False end.
Definition raised {A} (r : Result A) : Prop :=
  match r with Raise _ => True | _ => False end.
Definition terminated {A} (r : Result A) : Prop :=
  match r with Return _ => False | _ => True end.

(** The exit status of the process: that of [sys.exit], 1 after an uncaught
    exception, none while the loop is running. *)
Definition exit_status {A} (r : Result A) : option Z :=
  match r with
  | Return _ => None
  | SystemExit code => Some code
  | Raise _ => Some 1
  end.

Definition sum_all (ds : list Z) : Z := fold_right Z.add 0 ds.
Definition sum_nonneg (ds : list Z) : Z :=
  fold_right (fun d acc => Z.max d 0 + acc) 0 ds.

(** The byte deltas computed by consecutive iterations, the first one
    against [last_traffic]. *)
Fixpoint deltas (last_traffic : Z) (inputs : list TickInput) : list Z :=
  match inputs with
  | [] => []
  | inp :: rest => diff_traffic last_traffic inp :: deltas (sample_traffic inp) rest
  end.

Definition same_day (self : ServerGuardian) (inputs : list TickInput) : Prop :=
  Forall (fun inp => today inp = last_check_date self) inputs.

(** The object once the byte delta of the iteration is absorbed. *)
Definition accounted (last_traffic : Z) (inp : TickInput) (self : ServerGuardian) :=
  set_daily_traffic_bytes (total_bytes last_traffic inp self) (rolled (today inp) self).

(** The object once the addresses of the iteration are absorbed too. *)
Definition observed (last_traffic : Z) (inp : TickInput) (self : ServerGuardian) :=
  set_daily_ips (unique_ips inp self) (accounted last_traffic inp self).

(** The actions that precede the first circuit breaker. *)
Definition pre_log (cfg : Config) (inp : TickInput) (self : ServerGuardian) :=
  reset_log (today inp) self ++ [Sleep 1] ++ read_log cfg inp.

(** The set of all addresses returned by the connection sampler during the
    given iterations. *)
Definition observed_ips (inputs : list TickInput) : gset string :=
  ⋃ (map (fun inp => list_to_set (sample_ips inp)) inputs).

(** Bandwidth-shaping commands. *)
Definition is_tc_cmd (e : Event) : bool :=
  match e with
  | RunCmd (TcQdiscDel _) | RunCmd (TcQdiscAddTbf _ _) => true
  | _ => false
  end.


(** The object as [__init__] leaves it. *)
Definition fresh (date_today : date) : ServerGuardian :=
  {| punish_end_time := 0%Q;
     high_load_duration := 0;
     current_state := NORMAL;
     daily_ips := ∅;
     daily_traffic_bytes := 0;
     last_check_date := date_today |}.

(** ** Concrete inputs *)

Definition day1 : date := {| year := 2024; month := 5; day := 17 |}.
Definition day2 : date := {| year := 2024; month := 5; day := 18 |}.

(** An iteration on [day1] whose counter reads succeed. *)
Definition tick_ok (rx_read tx_read : Z) (ips : list string) (now : Q) : TickInput :=
  {| today := day1; rx := Some rx_read; tx := Some tx_read;
     netstat := Some ips; clock := now; log_append := true |}.

(** An iteration on [day1] whose counter read fails. *)
Definition tick_unreadable (ips : list string) (now : Q) : TickInput :=
  {| today := day1; rx := None; tx := Some 0; netstat := Some ips; clock := now;
     log_append := true |}.

(** An iteration on [day1] during which the shutdown log cannot be appended
    to (full disk, read-only /var/log). *)
Definition tick_log_unwritable (rx_read tx_read : Z) (ips : list string) (now : Q)
    : TickInput :=
  {| today := day1; rx := Some rx_read; tx := Some tx_read;
     netstat := Some ips; clock := now; log_append := false |}.

Definition sixteen_ips : list string :=
  ["a1"; "a2"; "a3"; "a4"; "a5"; "a6"; "a7"; "a8"; "a9";
   "a10"; "a11"; "a12"; "a13"; "a14"; "a15"; "a16"].

(** Two iterations: 100 bytes are counted, then the counters cannot be read,
    so the second delta is -100. *)
Definition run_with_failed_read : list TickInput :=
  [tick_ok 60 40 ["10.0.0.1"; "10.0.0.2"; "10.0.0.1"] 1;
   tick_unreadable ["10.0.0.2"; EmptyString; "10.0.0.3"] 2].

(** A guardian on [day1] that has seen nine consecutive seconds of overage. *)
Definition nine_seconds_high : ServerGuardian :=
  set_high_load_duration 9 (fresh day1).

(** A guardian with a record of [day1]. *)
Definition end_of_day1 : ServerGuardian :=
  set_daily_traffic_bytes 5000 (set_daily_ips {[ "10.0.0.9" ]} (fresh day1)).

Definition first_tick_of_day2 : TickInput :=
  {| today := day2; rx := Some 700; tx := Some 300;
     netstat := Some ["10.0.0.1"]; clock := 5; log_append := true |}.

(** ** Further vocabulary *)

(** The three fields owned by the throttle machine. *)
Definition throttle_part (self : ServerGuardian) : State * Z * Q :=
  (current_state self, high_load_duration self, punish_end_time self).

(** The overage counter is never negative and, in NORMAL, stays below the
    trigger duration. *)
Definition streak_in_range (cfg : Config) (self : ServerGuardian) : Prop :=
  0 <= high_load_duration self /\
  (current_state self = NORMAL -> high_load_duration self < TRIGGER_DURATION cfg).

(** The rate of the last [tc qdisc add] in a log, [c0] when there is none. *)
Definition last_ceiling (c0 : Z) (log : list Event) : Z :=
  fold_left (fun c e =>
               match e with
               | RunCmd (TcQdiscAddTbf _ speed_mbit) => speed_mbit
               | _ => c
               end) log c0.

(** The ceiling that goes with the state of the throttle machine. *)
Definition ceiling_of_state (cfg : Config) (self : ServerGuardian) : Z :=
  match current_state self with
  | NORMAL => MAX_SPEED_LIMIT cfg
  | THROTTLED => THROTTLE_SPEED_LIMIT cfg
  end.

(** The value [main_loop] stores in [last_traffic] before the loop. *)
Definition baseline (rx0 tx0 : option Z) : Z :=
  match rx0, tx0 with
  | Some r, Some t => r + t
  | _, _ => 0
  end.

(** The actions of [main_loop] before the loop. *)
Definition startup_log (cfg : Config) (rx0 tx0 : option Z) : list Event :=
  [Print (MsgInitLimit (MAX_CONCURRENT_IPS cfg));
   RunCmd (IptablesDelete (MAX_CONCURRENT_IPS cfg));
   RunCmd (IptablesAppend (MAX_CONCURRENT_IPS cfg))]
  ++ tc_log cfg (MAX_SPEED_LIMIT cfg)
  ++ ReadStatistics (INTERFACE cfg) rx_bytes ::
     match rx0, tx0 with
     | Some _, Some _ => [ReadStatistics (INTERFACE cfg) tx_bytes]
     | Some _, None => [ReadStatistics (INTERFACE cfg) tx_bytes; Print MsgStatsError]
     | None, _ => [Print MsgStatsError]
     end
  ++ [Print (MsgStarted (INTERFACE cfg))].

Definition is_sleep (e : Event) : bool :=
  match e with Sleep _ => true | _ => false end.
Definition is_netstat (e : Event) : bool :=
  match e with Netstat => true | _ => false end.
Definition is_rx_read (e : Event) : bool :=
  match e with ReadStatistics _ rx_bytes => true | _ => false end.
Definition is_reset (e : Event) : bool :=
  match e with Print MsgReset => true | _ => false end.
Definition is_iptables (e : Event) : bool :=
  match e with
  | RunCmd (IptablesDelete _) | RunCmd (IptablesAppend _) => true
  | _ => false
  end.

(** A throttled guardian whose punishment ends at time 1900. *)
Definition throttled_until_1900 : ServerGuardian :=
  set_punish_end_time 1900 (set_current_state THROTTLED (set_high_load_duration 10 (fresh day1))).

(** ** Basic facts about the monad and the methods *)

Lemma Qgtb_true x y : Qgtb x y = true <-> (y < x)%Q.
Proof.
  unfold Qgtb. rewrite Qgt_alt.
  destruct (x ?= y)%Q; split; intros E; try reflexivity; discriminate E.
Qed.

Lemma Qgtb_false x y : Qgtb x y = false <-> (x <= y)%Q.
Proof.
  rewrite <- not_true_iff_false, Qgtb_true. split.
  - apply Qnot_lt_le.
  - apply Qle_not_lt.
Qed.

Lemma bind_return {A B} (m : M A) (k : A -> M B) self a self1 log1 :
  m self = (Return a, self1, log1) ->
  (m ≫= k) self =
    (result_of (k a self1), state_of (k a self1), log1 ++ log_of (k a self1)).
Proof.
  intros H. unfold mbind, M_bind. rewrite H.
  destruct (k a self1) as [[r s] l]. reflexivity.
Qed.

Lemma bind_exit {A B} (m : M A) (k : A -> M B) self code self1 log1 :
  m self = (SystemExit code, self1, log1) ->
  (m ≫= k) self = (SystemExit code, self1, log1).
Proof. intros H. unfold mbind, M_bind. rewrite H. reflexivity. Qed.

Lemma bind_raise {A B} (m : M A) (k : A -> M B) self e self1 log1 :
  m self = (Raise e, self1, log1) ->
  (m ≫= k) self = (Raise e, self1, log1).
Proof. intros H. unfold mbind, M_bind. rewrite H. reflexivity. Qed.

(** A computation that has stopped, either way, stops what follows it. *)
Lemma bind_stop {A B} (m : M A) (k : A -> M B) self (ok : bool) self1 log1 :
  m self = (shutdown_result ok, self1, log1) ->
  (m ≫= k) self = (shutdown_result ok, self1, log1).
Proof.
  intros H. unfold mbind, M_bind. rewrite H. destruct ok; reflexivity.
Qed.

Lemma outcome_eta {A} (o : Result A * ServerGuardian * list Event) :
  o = (result_of o, state_of o, log_of o).
Proof. destruct o as [[r s] l]. reflexivity. Qed.

Lemma set_daily_ips_same self : set_daily_ips (daily_ips self) self = self.
Proof. destruct self. reflexivity. Qed.

Lemma set_daily_ips_twice a b self :
  set_daily_ips a (set_daily_ips b self) = set_daily_ips a self.
Proof. reflexivity. Qed.

(** The loop over [active_ips] inserts every address into the set. *)
Lemma for_each_add (ips : list string) self :
  for_each ips (fun ip =>
    modify (fun s => set_daily_ips ({[ ip ]} ∪ daily_ips s) s)) self
  = (Return tt, set_daily_ips (list_to_set ips ∪ daily_ips self) self, []).
Proof.
  revert self. induction ips as [|ip ips IH]; intros self.
  - simpl. unfold mret, M_ret. rewrite (left_id_L ∅ (∪)).
    rewrite set_daily_ips_same. reflexivity.
  - simpl. unfold mbind, M_bind, modify. rewrite IH. simpl.
    rewrite set_daily_ips_twice. do 2 f_equal. f_equal.
    rewrite (comm_L (∪) {[ ip ]} (list_to_set ips)).
    rewrite <- (assoc_L (∪)). reflexivity.
Qed.

Lemma check_daily_reset_eq d self :
  check_daily_reset d self = (Return tt, rolled d self, reset_log d self).
Proof.
  unfold check_daily_reset, rolled, reset_log, mbind, M_bind, get_self.
  destruct (decide (d = last_check_date self)) as [e|n].
  - rewrite bool_decide_eq_true_2 by exact e. reflexivity.
  - rewrite bool_decide_eq_false_2 by exact n. reflexivity.
Qed.

Lemma get_current_traffic_eq cfg inp self :
  get_current_traffic cfg (rx inp) (tx inp) self
  = (Return (sample_traffic inp), self, read_log cfg inp).
Proof.
  unfold get_current_traffic, sample_traffic, read_log.
  destruct (rx inp), (tx inp); reflexivity.
Qed.

Lemma get_active_ips_eq inp self :
  get_active_ips (netstat inp) self = (Return (sample_ips inp), self, [Netstat]).
Proof.
  unfold get_active_ips, sample_ips. destruct (netstat inp); reflexivity.
Qed.

Lemma shutdown_server_eq ok reason self :
  shutdown_server ok reason self
    = (shutdown_result ok, self, shutdown_trace ok reason).
Proof. destruct ok; reflexivity. Qed.

(** ** The throttle block in closed form *)

Lemma throttle_logic_eq cfg now v self :
  throttle_logic cfg now v self =
  match current_state self with
  | THROTTLED =>
      if Qle_bool (punish_end_time self - now) 0 then
        (Return tt,
         set_high_load_duration 0 (set_current_state NORMAL self),
         Print MsgRecover :: tc_log cfg (MAX_SPEED_LIMIT cfg))
      else (Return tt, self, [])
  | NORMAL =>
      if Qgtb v (inject_Z (TRIGGER_SPEED cfg)) then
        if high_load_duration self + 1 >=? TRIGGER_DURATION cfg then
          (Return tt,
           set_punish_end_time (now + inject_Z (PUNISH_DURATION cfg))%Q
             (set_current_state THROTTLED
                (set_high_load_duration (high_load_duration self + 1) self)),
           Print (MsgPunish (TRIGGER_DURATION cfg) (TRIGGER_SPEED cfg))
             :: tc_log cfg (THROTTLE_SPEED_LIMIT cfg))
        else
          (Return tt, set_high_load_duration (high_load_duration self + 1) self, [])
      else (Return tt, set_high_load_duration 0 self, [])
  end.
Proof.
  unfold throttle_logic, mbind, M_bind, get_self.
  destruct (current_state self).
  - destruct (Qgtb v (inject_Z (TRIGGER_SPEED cfg))); [|reflexivity].
    cbn [modify high_load_duration set_high_load_duration].
    destruct (high_load_duration self + 1 >=? TRIGGER_DURATION cfg); reflexivity.
  - destruct (Qle_bool (punish_end_time self - now) 0); reflexivity.
Qed.

Lemma throttle_logic_returns cfg now v self :
  result_of (throttle_logic cfg now v self) = Return tt.
Proof.
  rewrite throttle_logic_eq.
  destruct (current_state self).
  - destruct (Qgtb _ _); [destruct (_ >=? _)|]; reflexivity.
  - destruct (Qle_bool _ _); reflexivity.
Qed.

(** The throttle block never touches the daily record. *)
Lemma throttle_logic_daily cfg now v self :
  let self' := state_of (throttle_logic cfg now v self) in
  daily_ips self' = daily_ips self /\
  daily_traffic_bytes self' = daily_traffic_bytes self /\
  last_check_date self' = last_check_date self.
Proof.
  rewrite throttle_logic_eq.
  destruct (current_state self).
  - destruct (Qgtb _ _); [destruct (_ >=? _)|]; repeat split.
  - destruct (Qle_bool _ _); repeat split.
Qed.

Lemma punishment_pending pe now : (now < pe)%Q -> Qle_bool (pe - now) 0 = false.
Proof.
  intros H. apply not_true_iff_false. rewrite Qle_bool_iff. lra.
Qed.

Lemma punishment_over pe now : (pe <= now)%Q -> Qle_bool (pe - now) 0 = true.
Proof. intros H. apply Qle_bool_iff. lra. Qed.

Lemma feed_cons cfg s samples self :
  feed cfg (s :: samples) self =
  (result_of (feed cfg samples (state_of (throttle_logic cfg (fst s) (snd s) self))),
   state_of (feed cfg samples (state_of (throttle_logic cfg (fst s) (snd s) self))),
   log_of (throttle_logic cfg (fst s) (snd s) self)
     ++ log_of (feed cfg samples (state_of (throttle_logic cfg (fst s) (snd s) self)))).
Proof.
  unfold feed. cbn [for_each].
  pose proof (throttle_logic_returns cfg (fst s) (snd s) self) as Hr.
  erewrite bind_return; [reflexivity|].
  rewrite (outcome_eta (throttle_logic cfg (fst s) (snd s) self)) at 1.
  rewrite Hr. reflexivity.
Qed.

Lemma feed_app cfg s1 s2 self :
  state_of (feed cfg (s1 ++ s2) self) = state_of (feed cfg s2 (state_of (feed cfg s1 self)))
  /\ log_of (feed cfg (s1 ++ s2) self)
     = log_of (feed cfg s1 self) ++ log_of (feed cfg s2 (state_of (feed cfg s1 self))).
Proof.
  revert self. induction s1 as [|s s1 IH]; intros self.
  - split; reflexivity.
  - cbn [app]. rewrite !feed_cons. cbn [state_of log_of fst snd].
    destruct (IH (state_of (throttle_logic cfg (fst s) (snd s) self))) as [-> ->].
    split; [reflexivity|]. rewrite <- app_assoc. reflexivity.
Qed.

Lemma feed_one cfg s self :
  state_of (feed cfg [s] self) = state_of (throttle_logic cfg (fst s) (snd s) self)
  /\ log_of (feed cfg [s] self) = log_of (throttle_logic cfg (fst s) (snd s) self).
Proof.
  rewrite feed_cons. unfold feed, for_each, mret, M_ret.
  cbn [state_of log_of fst snd]. rewrite app_nil_r. split; reflexivity.
Qed.

(** ** The loop body in closed form *)

Lemma loop_body_eq cfg last inp self :
  loop_body cfg last inp self =
  if Qgtb (total_gb last inp self) (inject_Z (MAX_DAILY_TRAFFIC cfg)) then
    (shutdown_result (log_append inp), accounted last inp self,
     pre_log cfg inp self ++
       shutdown_trace (log_append inp)
         (TrafficOverLimit (total_gb last inp self) (MAX_DAILY_TRAFFIC cfg)))
  else if Z.of_nat (unique_count inp self) >? MAX_DAILY_UNIQUE_IPS cfg then
    (shutdown_result (log_append inp), observed last inp self,
     pre_log cfg inp self ++ [Netstat] ++
       shutdown_trace (log_append inp)
         (UniqueIpsOverLimit (unique_count inp self) (MAX_DAILY_UNIQUE_IPS cfg)))
  else
    (Return (sample_traffic inp),
     state_of (throttle_logic cfg (clock inp) (speed_mbps last inp) (observed last inp self)),
     pre_log cfg inp self ++ [Netstat] ++
       log_of (throttle_logic cfg (clock inp) (speed_mbps last inp) (observed last inp self))).
Proof.
  unfold loop_body.
  unfold mbind at 1, M_bind at 1. rewrite check_daily_reset_eq.
  unfold mbind at 1, M_bind at 1. unfold emit at 1.
  unfold mbind at 1, M_bind at 1. rewrite get_current_traffic_eq.
  unfold mbind at 1, M_bind at 1. unfold modify at 1.
  unfold mbind at 1, M_bind at 1. unfold get_self at 1.
  cbn [daily_traffic_bytes set_daily_traffic_bytes].
  change (daily_traffic_bytes (rolled (today inp) self) + (sample_traffic inp - last))
    with (total_bytes last inp self).
  change (total_bytes last inp self # 1024 * 1024 * 1024)%Q with (total_gb last inp self).
  change ((sample_traffic inp - last) * 8 # 1024 * 1024)%Q with (speed_mbps last inp).
  change (set_daily_traffic_bytes (total_bytes last inp self) (rolled (today inp) self))
    with (accounted last inp self).
  unfold pre_log.
  destruct (Qgtb (total_gb last inp self) (inject_Z (MAX_DAILY_TRAFFIC cfg))).
  - erewrite bind_stop by apply shutdown_server_eq.
    destruct (log_append inp); cbn [shutdown_result];
      rewrite <- !app_assoc; reflexivity.
  - unfold mbind at 1, M_bind at 1. unfold mret at 1, M_ret at 1.
    unfold mbind at 1, M_bind at 1. rewrite get_active_ips_eq.
    unfold mbind at 1, M_bind at 1. rewrite for_each_add.
    unfold mbind at 1, M_bind at 1. unfold get_self at 1.
    cbn [daily_ips set_daily_ips accounted set_daily_traffic_bytes].
    change (list_to_set (sample_ips inp) ∪ daily_ips (rolled (today inp) self))
      with (unique_ips inp self).
    change (size (unique_ips inp self)) with (unique_count inp self).
    change (set_daily_ips (unique_ips inp self)
              (set_daily_traffic_bytes (total_bytes last inp self) (rolled (today inp) self)))
      with (observed last inp self).
    destruct (Z.of_nat (unique_count inp self) >? MAX_DAILY_UNIQUE_IPS cfg).
    + erewrite bind_stop by apply shutdown_server_eq.
      destruct (log_append inp); cbn [shutdown_result];
        rewrite <- !app_assoc; reflexivity.
    + unfold mbind, M_bind, mret, M_ret.
      pose proof (throttle_logic_returns cfg (clock inp) (speed_mbps last inp)
                    (observed last inp self)) as Hr.
      unfold observed in *. revert Hr.
      destruct (throttle_logic cfg (clock inp) (speed_mbps last inp)
                  (set_daily_ips (unique_ips inp self) (accounted last inp self)))
        as [[r s] l].
      unfold result_of; simpl; intros ->. cbn [state_of log_of fst snd].
      rewrite !app_nil_r, <- !app_assoc. reflexivity.
Qed.

(** ** The throttle state machine *)

Lemma set_high_load_duration_same c self :
  c = high_load_duration self -> set_high_load_duration c self = self.
Proof. intros ->. destruct self. reflexivity. Qed.

(** While the counter stays below the trigger duration, ticks above the
    threshold only count up. *)
Lemma feed_highs cfg samples self :
  current_state self = NORMAL ->
  Forall (fun x => exceeds cfg (snd x)) samples ->
  high_load_duration self + Z.of_nat (length samples) < TRIGGER_DURATION cfg ->
  state_of (feed cfg samples self)
    = set_high_load_duration (high_load_duration self + Z.of_nat (length samples)) self
  /\ log_of (feed cfg samples self) = [].
Proof.
  revert self. induction samples as [|s samples IH]; intros self Hn Hall Hlt.
  - cbn. split; [|reflexivity].
    symmetry. apply set_high_load_duration_same. lia.
  - inversion Hall as [|? ? Hs Hall']; subst.
    cbn [length] in Hlt. rewrite feed_cons. cbn [state_of log_of fst snd].
    rewrite throttle_logic_eq, Hn.
    apply Qgtb_true in Hs. rewrite Hs.
    destruct (high_load_duration self + 1 >=? TRIGGER_DURATION cfg) eqn:E.
    { apply Z.geb_le in E. lia. }
    cbn [state_of log_of fst snd].
    destruct (IH (set_high_load_duration (high_load_duration self + 1) self))
      as [E1 E2].
    + exact Hn.
    + exact Hall'.
    + cbn [high_load_duration set_high_load_duration]. lia.
    + rewrite E1, E2. cbn [high_load_duration set_high_load_duration].
      split; [|reflexivity].
      unfold set_high_load_duration. cbn. f_equal. lia.
Qed.

(** While the punishment is pending the machine ignores its input. *)
Lemma feed_throttled cfg samples self :
  current_state self = THROTTLED ->
  Forall (fun x => (fst x < punish_end_time self)%Q) samples ->
  feed cfg samples self = (Return tt, self, []).
Proof.
  intros Ht Hall. induction samples as [|s samples IH].
  - reflexivity.
  - inversion Hall as [|? ? Hs Hall']; subst.
    rewrite feed_cons, throttle_logic_eq, Ht.
    rewrite (punishment_pending _ _ Hs). cbn [state_of log_of fst snd].
    rewrite (IH Hall'). reflexivity.
Qed.

Lemma Forall_take {A} (P : A -> Prop) n (l : list A) :
  Forall P l -> Forall P (take n l).
Proof.
  intros H. revert n. induction H as [|x l Hx Hl IH]; intros [|n]; cbn; auto.
Qed.

(** C2: starting in NORMAL with the counter at zero, D-1 consecutive ticks
    above the trigger threshold never leave NORMAL and touch no bandwidth
    ceiling; if the next tick is at or below the threshold the machine is
    still NORMAL with the counter back at zero, and if it is above the
    threshold as well (the D-th in a row) the machine enters THROTTLED on that
    very tick and the throttled ceiling is installed by that tick. *)
Theorem sustained_overage_triggers_on_tick_D
    cfg self (highs : list (Q * Q)) (s : Q * Q) :
  current_state self = NORMAL ->
  high_load_duration self = 0 ->
  Forall (fun x => exceeds cfg (snd x)) highs ->
  Z.of_nat (length highs) = TRIGGER_DURATION cfg - 1 ->
  (forall n,
      current_state (state_of (feed cfg (take n highs) self)) = NORMAL /\
      log_of (feed cfg (take n highs) self) = []) /\
  (~ exceeds cfg (snd s) ->
      current_state (state_of (feed cfg (highs ++ [s]) self)) = NORMAL /\
      high_load_duration (state_of (feed cfg (highs ++ [s]) self)) = 0 /\
      log_of (feed cfg (highs ++ [s]) self) = []) /\
  (exceeds cfg (snd s) ->
      current_state (state_of (feed cfg (highs ++ [s]) self)) = THROTTLED /\
      log_of (feed cfg (highs ++ [s]) self)
        = Print (MsgPunish (TRIGGER_DURATION cfg) (TRIGGER_SPEED cfg))
            :: tc_log cfg (THROTTLE_SPEED_LIMIT cfg)).
Proof.
  intros Hn Hc Hall Hlen.
  assert (Hpre : forall l, Forall (fun x => exceeds cfg (snd x)) l ->
            Z.of_nat (length l) <= TRIGGER_DURATION cfg - 1 ->
            state_of (feed cfg l self)
              = set_high_load_duration (Z.of_nat (length l)) self
            /\ log_of (feed cfg l self) = []).
  { intros l Hl Hle.
    destruct (feed_highs cfg l self Hn Hl) as [E1 E2]; [lia|].
    rewrite Hc in E1. split; assumption. }
  split; [|split].
  - intros n.
    destruct (Hpre (take n highs)) as [E1 E2].
    + apply Forall_take, Hall.
    + rewrite length_take. lia.
    + rewrite E1, E2. split; [exact Hn|reflexivity].
  - intros Hlow.
    destruct (feed_app cfg highs [s] self) as [-> ->].
    destruct (Hpre highs Hall) as [-> ->]; [lia|].
    destruct (feed_one cfg s (set_high_load_duration (Z.of_nat (length highs)) self))
      as [-> ->].
    rewrite throttle_logic_eq. cbn [current_state set_high_load_duration]. rewrite Hn.
    assert (E : Qgtb (snd s) (inject_Z (TRIGGER_SPEED cfg)) = false).
    { apply not_true_iff_false. rewrite Qgtb_true. exact Hlow. }
    rewrite E. cbn. repeat split. exact Hn.
  - intros Hhigh.
    destruct (feed_app cfg highs [s] self) as [-> ->].
    destruct (Hpre highs Hall) as [-> ->]; [lia|].
    destruct (feed_one cfg s (set_high_load_duration (Z.of_nat (length highs)) self))
      as [-> ->].
    rewrite throttle_logic_eq. cbn [current_state set_high_load_duration high_load_duration].
    rewrite Hn.
    apply Qgtb_true in Hhigh. rewrite Hhigh.
    assert (E : (Z.of_nat (length highs) + 1 >=? TRIGGER_DURATION cfg) = true).
    { apply Z.geb_le. lia. }
    rewrite E. cbn. split; reflexivity.
Qed.

(** C3: once the machine has entered THROTTLED on a tick at time t, every
    later tick with now < t + P leaves the whole object unchanged and issues
    no command, whatever the rates; the first tick with now >= t + P brings
    it back to NORMAL, installs the normal ceiling and leaves the counter at
    zero. *)
Theorem punishment_lasts_for_P cfg self0 t v (during : list (Q * Q)) (s : Q * Q) :
  current_state self0 = NORMAL ->
  current_state (state_of (throttle_logic cfg t v self0)) = THROTTLED ->
  Forall (fun x => (fst x < t + inject_Z (PUNISH_DURATION cfg))%Q) during ->
  (t + inject_Z (PUNISH_DURATION cfg) <= fst s)%Q ->
  feed cfg during (state_of (throttle_logic cfg t v self0))
    = (Return tt, state_of (throttle_logic cfg t v self0), []) /\
  current_state
    (state_of (feed cfg (during ++ [s]) (state_of (throttle_logic cfg t v self0))))
    = NORMAL /\
  high_load_duration
    (state_of (feed cfg (during ++ [s]) (state_of (throttle_logic cfg t v self0))))
    = 0 /\
  log_of (feed cfg (during ++ [s]) (state_of (throttle_logic cfg t v self0)))
    = Print MsgRecover :: tc_log cfg (MAX_SPEED_LIMIT cfg).
Proof.
  intros Hn Hthr Hall Hend.
  assert (Hpe : punish_end_time (state_of (throttle_logic cfg t v self0))
                = (t + inject_Z (PUNISH_DURATION cfg))%Q).
  { revert Hthr. rewrite throttle_logic_eq, Hn.
    destruct (Qgtb v _); [destruct (_ >=? _)|]; cbn; intros H;
      try reflexivity; rewrite Hn in H; discriminate H. }
  set (self := state_of (throttle_logic cfg t v self0)) in *.
  assert (Hfeed : feed cfg during self = (Return tt, self, [])).
  { apply feed_throttled; [exact Hthr|]. rewrite Hpe. exact Hall. }
  split; [exact Hfeed|].
  destruct (feed_app cfg during [s] self) as [-> ->].
  rewrite Hfeed. cbn [state_of log_of fst snd app].
  destruct (feed_one cfg s self) as [-> ->].
  rewrite throttle_logic_eq, Hthr, Hpe.
  rewrite (punishment_over _ _ Hend). cbn.
  repeat split.
Qed.

(** C4, as the code has it: on the tick where the counter reaches the
    trigger duration in NORMAL, the throttled ceiling is installed and
    punish_end_time becomes now + PUNISH_DURATION; the counter keeps the
    value it has just reached. *)
Theorem trigger_transition_actions cfg self now v :
  current_state self = NORMAL ->
  exceeds cfg v ->
  TRIGGER_DURATION cfg <= high_load_duration self + 1 ->
  current_state (state_of (throttle_logic cfg now v self)) = THROTTLED /\
  punish_end_time (state_of (throttle_logic cfg now v self))
    = (now + inject_Z (PUNISH_DURATION cfg))%Q /\
  log_of (throttle_logic cfg now v self)
    = Print (MsgPunish (TRIGGER_DURATION cfg) (TRIGGER_SPEED cfg))
        :: tc_log cfg (THROTTLE_SPEED_LIMIT cfg) /\
  high_load_duration (state_of (throttle_logic cfg now v self))
    = high_load_duration self + 1.
Proof.
  intros Hn Hv Hd.
  rewrite throttle_logic_eq, Hn.
  apply Qgtb_true in Hv. rewrite Hv.
  assert (E : (high_load_duration self + 1 >=? TRIGGER_DURATION cfg) = true).
  { apply Z.geb_le. lia. }
  rewrite E. repeat split.
Qed.

(** ** Iterations that return *)

Lemma loop_body_return cfg last inp self r self' log :
  loop_body cfg last inp self = (Return r, self', log) ->
  r = sample_traffic inp /\
  self' = state_of (throttle_logic cfg (clock inp) (speed_mbps last inp)
                      (observed last inp self)) /\
  log = pre_log cfg inp self ++ [Netstat] ++
          log_of (throttle_logic cfg (clock inp) (speed_mbps last inp)
                    (observed last inp self)).
Proof.
  rewrite loop_body_eq.
  destruct (Qgtb _ _); [destruct (log_append inp); intros H; discriminate H|].
  destruct (_ >? _); [destruct (log_append inp); intros H; discriminate H|].
  intros H. injection H as <- <- <-. repeat split.
Qed.

Lemma rolled_same_day d self : d = last_check_date self -> rolled d self = self.
Proof. intros H. unfold rolled. destruct (decide _); [reflexivity|contradiction]. Qed.

Lemma loop_body_return_daily cfg last inp self r self' log :
  loop_body cfg last inp self = (Return r, self', log) ->
  daily_traffic_bytes self' = total_bytes last inp self /\
  daily_ips self' = unique_ips inp self /\
  last_check_date self' = today inp.
Proof.
  intros H. apply loop_body_return in H as (_ & -> & _).
  destruct (throttle_logic_daily cfg (clock inp) (speed_mbps last inp)
              (observed last inp self)) as (-> & -> & ->).
  cbn. repeat split.
  unfold rolled. destruct (decide _) as [e|n]; [symmetry; exact e|reflexivity].
Qed.

Lemma iterate_cons_return cfg last inp rest self r self1 log1 :
  loop_body cfg last inp self = (Return r, self1, log1) ->
  iterate cfg last (inp :: rest) self =
    (result_of (iterate cfg r rest self1), state_of (iterate cfg r rest self1),
     log1 ++ log_of (iterate cfg r rest self1)).
Proof.
  intros H. cbn [iterate].
  exact (bind_return _ (fun last' => iterate cfg last' rest) _ _ _ _ H).
Qed.

Lemma iterate_cons_exit cfg last inp rest self code self1 log1 :
  loop_body cfg last inp self = (SystemExit code, self1, log1) ->
  iterate cfg last (inp :: rest) self = (SystemExit code, self1, log1).
Proof.
  intros H. cbn [iterate].
  exact (bind_exit _ (fun last' => iterate cfg last' rest) _ _ _ _ H).
Qed.

Lemma iterate_cons_raise cfg last inp rest self e self1 log1 :
  loop_body cfg last inp self = (Raise e, self1, log1) ->
  iterate cfg last (inp :: rest) self = (Raise e, self1, log1).
Proof.
  intros H. cbn [iterate].
  exact (bind_raise _ (fun last' => iterate cfg last' rest) _ _ _ _ H).
Qed.

(** An iteration that does not return ends the loop. *)
Lemma iterate_cons_stop cfg last inp rest self :
  terminated (result_of (loop_body cfg last inp self)) ->
  iterate cfg last (inp :: rest) self = loop_body cfg last inp self.
Proof.
  destruct (loop_body cfg last inp self) as [[[a|c|ex] s0] l0] eqn:E; cbn.
  - intros [].
  - intros _. exact (iterate_cons_exit _ _ _ rest _ _ _ _ E).
  - intros _. exact (iterate_cons_raise _ _ _ rest _ _ _ _ E).
Qed.

(** The daily record after a run of iterations within one calendar day. *)
Lemma iterate_same_day cfg inputs :
  forall last self r self' log,
  same_day self inputs ->
  iterate cfg last inputs self = (Return r, self', log) ->
  daily_traffic_bytes self' = daily_traffic_bytes self + sum_all (deltas last inputs) /\
  daily_ips self' = daily_ips self ∪ observed_ips inputs /\
  last_check_date self' = last_check_date self.
Proof.
  induction inputs as [|inp rest IH]; intros last self r self' log Hday Hrun.
  - cbn in Hrun. injection Hrun as <- <- <-. cbn.
    unfold observed_ips. cbn. rewrite (right_id_L ∅ (∪)). repeat split. lia.
  - inversion Hday as [|? ? Hd Hday']; subst.
    destruct (loop_body cfg last inp self) as [[[a|c|ex] self1] log1] eqn:E.
    + rewrite (iterate_cons_return _ _ _ _ _ _ _ _ E) in Hrun.
      pose proof (loop_body_return _ _ _ _ _ _ _ E) as (-> & _ & _).
      apply loop_body_return_daily in E as (Eb & Ei & Ed).
      unfold total_bytes in Eb. unfold unique_ips in Ei.
      rewrite (rolled_same_day _ _ Hd) in Eb, Ei.
      assert (Hday1 : same_day self1 rest).
      { unfold same_day in *. rewrite Ed, Hd. exact Hday'. }
      destruct (iterate cfg (sample_traffic inp) rest self1) as [[r2 s2] l2] eqn:E2.
      cbn in Hrun. injection Hrun as -> -> <-.
      destruct (IH _ _ _ _ _ Hday1 E2) as (-> & -> & ->).
      rewrite Eb, Ei, Ed, Hd. cbn [deltas sum_all fold_right].
      unfold observed_ips. cbn [map union_list foldr].
      repeat split.
      * unfold sum_all. lia.
      * rewrite (comm_L (∪) (list_to_set (sample_ips inp)) (daily_ips self)).
        rewrite <- (assoc_L (∪)). reflexivity.
    + rewrite (iterate_cons_exit _ _ _ _ _ _ _ _ E) in Hrun. discriminate Hrun.
    + rewrite (iterate_cons_raise _ _ _ _ _ _ _ _ E) in Hrun. discriminate Hrun.
Qed.

Lemma sum_nonneg_all ds : Forall (fun d => 0 <= d) ds -> sum_nonneg ds = sum_all ds.
Proof.
  induction 1 as [|d ds Hd _ IH]; [reflexivity|].
  cbn. unfold sum_all, sum_nonneg in *. rewrite IH. lia.
Qed.

(** C1, as the code has it: within one calendar day the cumulative daily
    byte total is the initial total plus the plain sum of the byte deltas, so
    a negative delta is subtracted; the total is the sum of the non-negative
    deltas whenever no delta is negative. *)
Theorem daily_total_is_signed_sum cfg last inputs self r self' log :
  same_day self inputs ->
  iterate cfg last inputs self = (Return r, self', log) ->
  daily_traffic_bytes self' = daily_traffic_bytes self + sum_all (deltas last inputs) /\
  (Forall (fun d => 0 <= d) (deltas last inputs) ->
   daily_traffic_bytes self' = daily_traffic_bytes self + sum_nonneg (deltas last inputs)).
Proof.
  intros Hday Hrun.
  destruct (iterate_same_day cfg inputs _ _ _ _ _ Hday Hrun) as (E & _ & _).
  split; [exact E|].
  intros Hpos. rewrite (sum_nonneg_all _ Hpos). exact E.
Qed.

(** C9: within one calendar day the unique-address set grows by exactly the
    union of the address lists returned by the connection sampler; starting
    from the empty set of a fresh day, the unique-address count is the
    cardinality of that union, and addresses already recorded never change
    the set. *)
Theorem unique_count_is_union_cardinality cfg last inputs self r self' log :
  same_day self inputs ->
  iterate cfg last inputs self = (Return r, self', log) ->
  daily_ips self' = daily_ips self ∪ observed_ips inputs /\
  (daily_ips self = ∅ -> size (daily_ips self') = size (observed_ips inputs)) /\
  (observed_ips inputs ⊆ daily_ips self -> size (daily_ips self') = size (daily_ips self)).
Proof.
  intros Hday Hrun.
  destruct (iterate_same_day cfg inputs _ _ _ _ _ Hday Hrun) as (_ & E & _).
  split; [exact E|]. split.
  - intros H0. rewrite E, H0, (left_id_L ∅ (∪)). reflexivity.
  - intros Hsub. rewrite E. f_equal. apply subseteq_union_1_L in Hsub.
    rewrite (comm_L (∪)). exact Hsub.
Qed.

(** ** The circuit breakers *)

Lemma traffic_over_dec cfg last inp self :
  Qgtb (total_gb last inp self) (inject_Z (MAX_DAILY_TRAFFIC cfg)) = true
  <-> traffic_over cfg last inp self.
Proof. apply Qgtb_true. Qed.

Lemma ips_over_dec cfg inp self :
  (Z.of_nat (unique_count inp self) >? MAX_DAILY_UNIQUE_IPS cfg) = true
  <-> ips_over cfg inp self.
Proof. unfold ips_over. rewrite Z.gtb_ltb. apply Z.ltb_lt. Qed.

(** The three ways an iteration can go. *)
Lemma loop_body_cases cfg last inp self :
  (traffic_over cfg last inp self /\
   loop_body cfg last inp self =
     (shutdown_result (log_append inp), accounted last inp self,
      pre_log cfg inp self ++
        shutdown_trace (log_append inp)
          (TrafficOverLimit (total_gb last inp self) (MAX_DAILY_TRAFFIC cfg))))
  \/
  (~ traffic_over cfg last inp self /\ ips_over cfg inp self /\
   loop_body cfg last inp self =
     (shutdown_result (log_append inp), observed last inp self,
      pre_log cfg inp self ++ [Netstat] ++
        shutdown_trace (log_append inp)
          (UniqueIpsOverLimit (unique_count inp self) (MAX_DAILY_UNIQUE_IPS cfg))))
  \/
  (~ traffic_over cfg last inp self /\ ~ ips_over cfg inp self /\
   loop_body cfg last inp self =
     (Return (sample_traffic inp),
      state_of (throttle_logic cfg (clock inp) (speed_mbps last inp)
                  (observed last inp self)),
      pre_log cfg inp self ++ [Netstat] ++
        log_of (throttle_logic cfg (clock inp) (speed_mbps last inp)
                  (observed last inp self)))).
Proof.
  rewrite loop_body_eq.
  destruct (Qgtb _ _) eqn:Et.
  - left. split; [apply traffic_over_dec, Et|reflexivity].
  - right.
    assert (Ht : ~ traffic_over cfg last inp self).
    { rewrite <- traffic_over_dec, Et. discriminate. }
    destruct (_ >? _) eqn:Ei.
    + left. repeat split; [exact Ht|apply ips_over_dec, Ei].
    + right. repeat split; [exact Ht|].
      rewrite <- ips_over_dec, Ei. discriminate.
Qed.

Lemma count_app p l1 l2 : count p (l1 ++ l2) = (count p l1 + count p l2)%nat.
Proof. unfold count. rewrite List.filter_app, length_app. reflexivity. Qed.

Lemma count_pre_log cfg inp self p :
  (forall m, p (Print m) = false) -> p (Sleep 1) = false ->
  (forall d c, p (ReadStatistics d c) = false) ->
  count p (pre_log cfg inp self) = 0%nat.
Proof.
  intros Hp Hs Hr. unfold pre_log, reset_log, read_log.
  rewrite !count_app. unfold count.
  destruct (decide _), (rx inp), (tx inp); cbn; rewrite ?Hp, ?Hs, ?Hr; reflexivity.
Qed.

Lemma count_throttle_log cfg now v self :
  count is_shutdown_entry (log_of (throttle_logic cfg now v self)) = 0%nat /\
  count is_shutdown_cmd (log_of (throttle_logic cfg now v self)) = 0%nat.
Proof.
  rewrite throttle_logic_eq. destruct (current_state self).
  - destruct (Qgtb _ _); [destruct (_ >=? _)|]; split; reflexivity.
  - destruct (Qle_bool _ _); split; reflexivity.
Qed.

Lemma count_shutdown_trace ok reason :
  count is_shutdown_entry (shutdown_trace ok reason) = (if ok then 1 else 0)%nat /\
  count is_shutdown_cmd (shutdown_trace ok reason) = (if ok then 1 else 0)%nat.
Proof. destruct ok; split; reflexivity. Qed.

(** How an iteration ends, by the two breaker conditions and the outcome of
    the append to the shutdown log. *)
Lemma loop_body_outcome cfg last inp self :
  (terminated (result_of (loop_body cfg last inp self))
     <-> traffic_over cfg last inp self \/ ips_over cfg inp self) /\
  (exited (result_of (loop_body cfg last inp self))
     <-> (traffic_over cfg last inp self \/ ips_over cfg inp self)
         /\ log_append inp = true) /\
  (raised (result_of (loop_body cfg last inp self))
     <-> (traffic_over cfg last inp self \/ ips_over cfg inp self)
         /\ log_append inp = false).
Proof.
  destruct (loop_body_cases cfg last inp self)
    as [(Ht & ->)|[(Ht & Hi & ->)|(Ht & Hi & ->)]];
    cbn [result_of fst]; try (destruct (log_append inp)); cbn;
    intuition discriminate.
Qed.

Lemma loop_body_return_not_over cfg last inp self r self' log :
  loop_body cfg last inp self = (Return r, self', log) ->
  ~ traffic_over cfg last inp self /\ ~ ips_over cfg inp self.
Proof.
  intros H. destruct (loop_body_outcome cfg last inp self) as (Hiff & _).
  rewrite H in Hiff. cbn in Hiff. tauto.
Qed.

(** Shutdown-log entries and shutdown commands of one iteration: one of each
    when it exits, none otherwise. *)
Lemma loop_body_shutdown_counts cfg last inp self :
  (exited (result_of (loop_body cfg last inp self)) /\
   result_of (loop_body cfg last inp self) = SystemExit 0 /\
   count is_shutdown_entry (log_of (loop_body cfg last inp self)) = 1%nat /\
   count is_shutdown_cmd (log_of (loop_body cfg last inp self)) = 1%nat /\
   exists before reason,
     log_of (loop_body cfg last inp self)
       = before ++ [AppendShutdownLog reason; RunCmd ShutdownNow])
  \/
  (~ exited (result_of (loop_body cfg last inp self)) /\
   count is_shutdown_entry (log_of (loop_body cfg last inp self)) = 0%nat /\
   count is_shutdown_cmd (log_of (loop_body cfg last inp self)) = 0%nat).
Proof.
  destruct (loop_body_cases cfg last inp self)
    as [(_ & ->)|[(_ & _ & ->)|(_ & _ & ->)]]; cbn [result_of log_of fst snd].
  - destruct (log_append inp); cbn [shutdown_result shutdown_trace exited];
      rewrite !count_app, !count_pre_log by reflexivity.
    + left. repeat split.
      eexists (pre_log cfg inp self ++ [_; _]), _.
      rewrite <- app_assoc. reflexivity.
    + right. repeat split. intros [].
  - destruct (log_append inp); cbn [shutdown_result shutdown_trace exited];
      rewrite !count_app, !count_pre_log by reflexivity.
    + left. repeat split.
      eexists (pre_log cfg inp self ++ [Netstat] ++ [_; _]), _.
      rewrite <- !app_assoc. reflexivity.
    + right. repeat split. intros [].
  - right. cbn [exited]. rewrite !count_app, !count_pre_log by reflexivity.
    destruct (count_throttle_log cfg (clock inp) (speed_mbps last inp)
                (observed last inp self)) as [-> ->].
    repeat split. intros [].
Qed.

Lemma iterate_shutdown_counts cfg inputs :
  forall last self,
  (count is_shutdown_entry (log_of (iterate cfg last inputs self)) <= 1)%nat /\
  (count is_shutdown_cmd (log_of (iterate cfg last inputs self)) <= 1)%nat.
Proof.
  induction inputs as [|inp rest IH]; intros last self.
  - cbn. split; lia.
  - assert (Hb : (count is_shutdown_entry (log_of (loop_body cfg last inp self)) <= 1)%nat /\
                 (count is_shutdown_cmd (log_of (loop_body cfg last inp self)) <= 1)%nat).
    { destruct (loop_body_shutdown_counts cfg last inp self)
        as [(_ & _ & -> & -> & _)|(_ & -> & ->)]; split; lia. }
    destruct (loop_body cfg last inp self) as [[[a|c|ex] self1] log1] eqn:E.
    + rewrite (iterate_cons_return _ _ _ _ _ _ _ _ E). cbn [log_of snd].
      destruct (loop_body_shutdown_counts cfg last inp self)
        as [(Hx & _)|(_ & H1 & H2)]; rewrite E in *.
      * destruct Hx.
      * cbn [log_of snd] in H1, H2. rewrite !count_app, H1, H2.
        exact (IH a self1).
    + rewrite (iterate_cons_exit _ _ _ _ _ _ _ _ E). exact Hb.
    + rewrite (iterate_cons_raise _ _ _ _ _ _ _ _ E). exact Hb.
Qed.

(** X19: an iteration fails to return exactly when the daily total in
    gigabytes is strictly above MAX_DAILY_TRAFFIC or the unique-address count
    is strictly above MAX_DAILY_UNIQUE_IPS.  If the append to the shutdown
    log succeeds it then writes one log entry, runs one shutdown command and
    exits with status 0; if the append fails it ends in the uncaught
    [OSError] with neither entry nor command.  A total equal to its ceiling
    does not trigger (the outcome then depends on the address count alone),
    nor does a count equal to its ceiling; and no run of the loop contains
    more than one log entry or more than one shutdown command. *)
Theorem circuit_breaker_fires_iff_over cfg last inp self :
  (terminated (result_of (loop_body cfg last inp self))
     <-> traffic_over cfg last inp self \/ ips_over cfg inp self) /\
  (exited (result_of (loop_body cfg last inp self))
     <-> (traffic_over cfg last inp self \/ ips_over cfg inp self)
         /\ log_append inp = true) /\
  (raised (result_of (loop_body cfg last inp self))
     <-> (traffic_over cfg last inp self \/ ips_over cfg inp self)
         /\ log_append inp = false) /\
  (exited (result_of (loop_body cfg last inp self)) ->
     result_of (loop_body cfg last inp self) = SystemExit 0 /\
     count is_shutdown_entry (log_of (loop_body cfg last inp self)) = 1%nat /\
     count is_shutdown_cmd (log_of (loop_body cfg last inp self)) = 1%nat /\
     exists before reason,
       log_of (loop_body cfg last inp self)
         = before ++ [AppendShutdownLog reason; RunCmd ShutdownNow]) /\
  (~ exited (result_of (loop_body cfg last inp self)) ->
     count is_shutdown_entry (log_of (loop_body cfg last inp self)) = 0%nat /\
     count is_shutdown_cmd (log_of (loop_body cfg last inp self)) = 0%nat) /\
  ((total_gb last inp self == inject_Z (MAX_DAILY_TRAFFIC cfg))%Q ->
     (terminated (result_of (loop_body cfg last inp self)) <-> ips_over cfg inp self)) /\
  (Z.of_nat (unique_count inp self) = MAX_DAILY_UNIQUE_IPS cfg ->
     (terminated (result_of (loop_body cfg last inp self))
        <-> traffic_over cfg last inp self)) /\
  (forall inputs,
     (count is_shutdown_entry (log_of (iterate cfg last inputs self)) <= 1)%nat /\
     (count is_shutdown_cmd (log_of (iterate cfg last inputs self)) <= 1)%nat).
Proof.
  destruct (loop_body_outcome cfg last inp self) as (Hiff & Hex & Hra).
  split; [exact Hiff|]. split; [exact Hex|]. split; [exact Hra|].
  split; [|split; [|split; [|split]]].
  - intros Hx.
    destruct (loop_body_shutdown_counts cfg last inp self)
      as [(_ & H0 & H1 & H2 & H3)|(Hn & _)]; [|contradiction].
    repeat split; assumption.
  - intros Hn.
    destruct (loop_body_shutdown_counts cfg last inp self)
      as [(Hx & _)|(_ & H1 & H2)]; [contradiction|].
    split; assumption.
  - intros Heq. rewrite Hiff. split; [|intros H; right; exact H].
    intros [H|H]; [|exact H].
    unfold traffic_over in H. rewrite Heq in H. destruct (Qlt_irrefl _ H).
  - intros Hcount. rewrite Hiff. split; [|intros H; left; exact H].
    intros [H|H]; [exact H|].
    unfold ips_over in H. lia.
  - intros inputs. apply iterate_shutdown_counts.
Qed.

(** ** Order of the steps within an iteration *)

Lemma pre_log_no_netstat cfg inp self : ~ In Netstat (pre_log cfg inp self).
Proof.
  unfold pre_log, reset_log, read_log. rewrite !in_app_iff.
  destruct (decide _), (rx inp), (tx inp); cbn; intuition discriminate.
Qed.

(** C6: the traffic breaker comes first, the address breaker second, the
    throttle machine last.  When the traffic breaker fires the process ends
    with the traffic reason, without having called the connection sampler,
    with the unique-address set as the daily reset left it and with the
    throttle fields untouched; when only the address breaker fires the process
    ends with the address reason after the sampler was called, again with
    the throttle fields untouched; in both cases no bandwidth command runs.
    The process ends by [sys.exit(0)] after the log entry and the shutdown
    command when the append to the shutdown log succeeds, and by the uncaught
    [OSError] of the append when it fails. *)
Theorem breakers_precede_throttle cfg last inp self :
  (traffic_over cfg last inp self ->
     terminated (result_of (loop_body cfg last inp self)) /\
     (log_append inp = true ->
        result_of (loop_body cfg last inp self) = SystemExit 0 /\
        log_of (loop_body cfg last inp self)
          = pre_log cfg inp self ++
            shutdown_log
              (TrafficOverLimit (total_gb last inp self) (MAX_DAILY_TRAFFIC cfg))) /\
     (log_append inp = false ->
        result_of (loop_body cfg last inp self) = Raise OSError /\
        log_of (loop_body cfg last inp self)
          = pre_log cfg inp self ++
            failed_shutdown_log
              (TrafficOverLimit (total_gb last inp self) (MAX_DAILY_TRAFFIC cfg))) /\
     ~ In Netstat (log_of (loop_body cfg last inp self)) /\
     count is_tc_cmd (log_of (loop_body cfg last inp self)) = 0%nat /\
     daily_ips (state_of (loop_body cfg last inp self))
       = daily_ips (rolled (today inp) self) /\
     current_state (state_of (loop_body cfg last inp self)) = current_state self /\
     high_load_duration (state_of (loop_body cfg last inp self))
       = high_load_duration self /\
     punish_end_time (state_of (loop_body cfg last inp self)) = punish_end_time self) /\
  (~ traffic_over cfg last inp self -> ips_over cfg inp self ->
     terminated (result_of (loop_body cfg last inp self)) /\
     (log_append inp = true ->
        result_of (loop_body cfg last inp self) = SystemExit 0 /\
        log_of (loop_body cfg last inp self)
          = pre_log cfg inp self ++ [Netstat] ++
            shutdown_log
              (UniqueIpsOverLimit (unique_count inp self) (MAX_DAILY_UNIQUE_IPS cfg))) /\
     (log_append inp = false ->
        result_of (loop_body cfg last inp self) = Raise OSError /\
        log_of (loop_body cfg last inp self)
          = pre_log cfg inp self ++ [Netstat] ++
            failed_shutdown_log
              (UniqueIpsOverLimit (unique_count inp self) (MAX_DAILY_UNIQUE_IPS cfg))) /\
     count is_tc_cmd (log_of (loop_body cfg last inp self)) = 0%nat /\
     daily_ips (state_of (loop_body cfg last inp self)) = unique_ips inp self /\
     current_state (state_of (loop_body cfg last inp self)) = current_state self /\
     high_load_duration (state_of (loop_body cfg last inp self))
       = high_load_duration self /\
     punish_end_time (state_of (loop_body cfg last inp self)) = punish_end_time self).
Proof.
  assert (Hroll : forall d,
            current_state (rolled d self) = current_state self /\
            high_load_duration (rolled d self) = high_load_duration self /\
            punish_end_time (rolled d self) = punish_end_time self).
  { intros d. unfold rolled. destruct (decide _); repeat split. }
  destruct (Hroll (today inp)) as (Hs & Hh & Hp).
  assert (Htc : forall ok reason, count is_tc_cmd (shutdown_trace ok reason) = 0%nat).
  { intros [] reason; reflexivity. }
  assert (Hns : forall ok reason, ~ In Netstat (shutdown_trace ok reason)).
  { intros [] reason; cbn; intuition discriminate. }
  split.
  - intros Ht.
    destruct (loop_body_cases cfg last inp self)
      as [(_ & ->)|[(Hn & _)|(Hn & _)]]; try contradiction.
    cbn [result_of state_of log_of fst snd].
    split; [destruct (log_append inp); exact I|].
    split; [intros ->; split; reflexivity|].
    split; [intros ->; split; reflexivity|].
    split.
    { rewrite in_app_iff. intros [H|H].
      - exact (pre_log_no_netstat _ _ _ H).
      - exact (Hns _ _ H). }
    split.
    { rewrite count_app, count_pre_log, Htc by reflexivity. reflexivity. }
    cbn. rewrite Hs, Hh, Hp. repeat split.
  - intros Hn Hi.
    destruct (loop_body_cases cfg last inp self)
      as [(Ht & _)|[(_ & _ & ->)|(_ & Hi' & _)]]; try contradiction.
    cbn [result_of state_of log_of fst snd].
    split; [destruct (log_append inp); exact I|].
    split; [intros ->; split; reflexivity|].
    split; [intros ->; split; reflexivity|].
    split.
    { rewrite !count_app, count_pre_log, Htc by reflexivity. reflexivity. }
    cbn. rewrite Hs, Hh, Hp. repeat split.
Qed.

(** ** Date rollover *)

Lemma rolled_new_day d self :
  d <> last_check_date self ->
  rolled d self = set_last_check_date d (set_daily_traffic_bytes 0 (set_daily_ips ∅ self)).
Proof. intros H. unfold rolled. destruct (decide _); [contradiction|reflexivity]. Qed.

(** C7: on an iteration whose date differs from the stored one,
    [check_daily_reset] empties the address set, zeroes the byte total and
    stores the new date before anything is absorbed; at the end of the
    iteration the byte total is that iteration's delta alone and the address
    set holds that iteration's addresses alone (none at all if the traffic
    breaker stopped the iteration before the sampler ran). *)
Theorem date_rollover_resets_daily_record cfg last inp self :
  today inp <> last_check_date self ->
  (daily_ips (state_of (check_daily_reset (today inp) self)) = ∅ /\
   daily_traffic_bytes (state_of (check_daily_reset (today inp) self)) = 0 /\
   last_check_date (state_of (check_daily_reset (today inp) self)) = today inp) /\
  last_check_date (state_of (loop_body cfg last inp self)) = today inp /\
  daily_traffic_bytes (state_of (loop_body cfg last inp self)) = diff_traffic last inp /\
  daily_ips (state_of (loop_body cfg last inp self)) ⊆ list_to_set (sample_ips inp) /\
  (~ traffic_over cfg last inp self ->
   daily_ips (state_of (loop_body cfg last inp self)) = list_to_set (sample_ips inp)).
Proof.
  intros Hd.
  pose proof (rolled_new_day _ _ Hd) as Hr.
  split.
  { rewrite check_daily_reset_eq. cbn [state_of fst snd]. rewrite Hr. repeat split. }
  assert (Hu : unique_ips inp self = list_to_set (sample_ips inp)).
  { unfold unique_ips. rewrite Hr. cbn. apply (right_id_L ∅ (∪)). }
  assert (Hb : total_bytes last inp self = diff_traffic last inp).
  { unfold total_bytes. rewrite Hr. cbn. lia. }
  destruct (loop_body_cases cfg last inp self)
    as [(Ht & ->)|[(Ht & _ & ->)|(Ht & _ & ->)]]; cbn [state_of fst snd].
  - unfold accounted. rewrite Hr, Hb. cbn.
    split; [reflexivity|]. split; [reflexivity|]. split.
    + apply empty_subseteq.
    + intros Hn. contradiction.
  - unfold observed, accounted. rewrite Hr, Hb, Hu. cbn.
    split; [reflexivity|]. split; [reflexivity|]. split; [reflexivity|].
    intros _. reflexivity.
  - destruct (throttle_logic_daily cfg (clock inp) (speed_mbps last inp)
                (observed last inp self)) as (-> & -> & ->).
    unfold observed, accounted. rewrite Hr, Hb, Hu. cbn.
    split; [reflexivity|]. split; [reflexivity|]. split; [reflexivity|].
    intros _. reflexivity.
Qed.

(** X18: the daily record after a run of iterations that starts with the
    first iteration of a new day: nothing but the observations of these
    iterations is in it. *)
Lemma iterate_since_rollover cfg last first rest self r self' log :
  today first <> last_check_date self ->
  Forall (fun inp => today inp = today first) rest ->
  iterate cfg last (first :: rest) self = (Return r, self', log) ->
  daily_traffic_bytes self' = sum_all (deltas last (first :: rest)) /\
  daily_ips self' = observed_ips (first :: rest) /\
  last_check_date self' = today first.
Proof.
  intros Hd Hrest Hrun.
  destruct (loop_body cfg last first self) as [[[a|c|ex] self1] log1] eqn:E.
  - rewrite (iterate_cons_return _ _ _ _ _ _ _ _ E) in Hrun.
    pose proof (loop_body_return _ _ _ _ _ _ _ E) as (-> & _ & _).
    apply loop_body_return_daily in E as (Eb & Ei & Ed).
    unfold total_bytes in Eb. unfold unique_ips in Ei.
    rewrite (rolled_new_day _ _ Hd) in Eb, Ei. cbn in Eb, Ei.
    rewrite (right_id_L ∅ (∪)) in Ei.
    assert (Hday1 : same_day self1 rest).
    { unfold same_day. rewrite Ed. exact Hrest. }
    destruct (iterate cfg (sample_traffic first) rest self1) as [[r2 s2] l2] eqn:E2.
    cbn in Hrun. injection Hrun as -> -> <-.
    destruct (iterate_same_day cfg rest _ _ _ _ _ Hday1 E2) as (-> & -> & ->).
    rewrite Eb, Ei, Ed. repeat split.
  - rewrite (iterate_cons_exit _ _ _ _ _ _ _ _ E) in Hrun. discriminate Hrun.
  - rewrite (iterate_cons_raise _ _ _ _ _ _ _ _ E) in Hrun. discriminate Hrun.
Qed.

(** ** Sampler failures *)



(** ** Exit codes *)

Lemma init_unprivileged euid date_today self :
  euid <> 0 ->
  __init__ euid date_today self = (SystemExit 1, fresh date_today, [Print MsgNeedRoot]).
Proof.
  intros Hne. unfold __init__, mbind, M_bind, modify.
  apply Z.eqb_neq in Hne. rewrite Hne. reflexivity.
Qed.

(** ** Concrete runs *)

(** The example of the specification: twelve ticks at 120 Mbps. *)
Example twelve_ticks_at_120 :
  current_state
    (state_of (feed user_configuration (replicate 9 (0%Q, 120%Q)) (fresh day1))) = NORMAL /\
  current_state
    (state_of (feed user_configuration (replicate 10 (0%Q, 120%Q)) (fresh day1))) = THROTTLED /\
  log_of (feed user_configuration (replicate 12 (0%Q, 120%Q)) (fresh day1))
    = Print (MsgPunish 10 100) :: tc_log user_configuration 60.
Proof. vm_compute. repeat split. Qed.

(** The traffic breaker at its boundary: exactly 100 GiB pass, one byte more
    shuts the host down. *)
Example traffic_at_ceiling :
  result_of (loop_body user_configuration 0
               (tick_ok (100 * 1024 * 1024 * 1024) 0 [] 0) (fresh day1))
    = Return (100 * 1024 * 1024 * 1024).
Proof. vm_compute. reflexivity. Qed.

Example traffic_above_ceiling :
  result_of (loop_body user_configuration 0
               (tick_ok (100 * 1024 * 1024 * 1024) 1 [] 0) (fresh day1))
    = SystemExit 0.
Proof. vm_compute. reflexivity. Qed.

(** The address breaker at its boundary: fifteen distinct addresses pass, the
    sixteenth shuts the host down. *)
Example fifteen_addresses :
  result_of (loop_body user_configuration 0
               (tick_ok 0 0 ["a1"; "a2"; "a3"; "a4"; "a5"; "a6"; "a7"; "a8"; "a9";
                             "a10"; "a11"; "a12"; "a13"; "a14"; "a15"; "a1"] 0)
               (fresh day1))
    = Return 0.
Proof. vm_compute. reflexivity. Qed.

Example sixteen_addresses :
  result_of (loop_body user_configuration 0
               (tick_ok 0 0 ["a16"] 0)
               (state_of (loop_body user_configuration 0
                  (tick_ok 0 0 ["a1"; "a2"; "a3"; "a4"; "a5"; "a6"; "a7"; "a8"; "a9";
                                "a10"; "a11"; "a12"; "a13"; "a14"; "a15"; "a1"] 0)
                  (fresh day1))))
    = SystemExit 0.
Proof. vm_compute. reflexivity. Qed.

(** C5, failing input: the daily total is one byte above 100 GiB and the
    shutdown log cannot be appended to.  The breaker fires, but the iteration
    ends in the uncaught [OSError] (exit status 1): no log entry is written
    and no shutdown command is run. *)
Lemma traffic_breaker_with_unwritable_log :
  traffic_over user_configuration 0
    (tick_log_unwritable (100 * 1024 * 1024 * 1024) 1 [] 0) (fresh day1) /\
  result_of (loop_body user_configuration 0
               (tick_log_unwritable (100 * 1024 * 1024 * 1024) 1 [] 0) (fresh day1))
    = Raise OSError /\
  count is_shutdown_entry
    (log_of (loop_body user_configuration 0
               (tick_log_unwritable (100 * 1024 * 1024 * 1024) 1 [] 0) (fresh day1)))
    = 0%nat /\
  count is_shutdown_cmd
    (log_of (loop_body user_configuration 0
               (tick_log_unwritable (100 * 1024 * 1024 * 1024) 1 [] 0) (fresh day1)))
    = 0%nat.
Proof. split; [reflexivity|]. vm_compute. repeat split. Qed.

(** C10, failing input: sixteen distinct addresses are connected and the
    shutdown log cannot be appended to.  The address breaker fires, but the
    process ends with exit status 1, not 0, having written no reason line and
    run no shutdown command; its log ends with the two announcements of
    [shutdown_server]. *)
Lemma address_breaker_with_unwritable_log :
  ips_over user_configuration (tick_log_unwritable 0 0 sixteen_ips 0) (fresh day1) /\
  exit_status
    (result_of (loop_body user_configuration 0
                  (tick_log_unwritable 0 0 sixteen_ips 0) (fresh day1)))
    = Some 1 /\
  count is_shutdown_entry
    (log_of (loop_body user_configuration 0
               (tick_log_unwritable 0 0 sixteen_ips 0) (fresh day1)))
    = 0%nat /\
  count is_shutdown_cmd
    (log_of (loop_body user_configuration 0
               (tick_log_unwritable 0 0 sixteen_ips 0) (fresh day1)))
    = 0%nat /\
  log_of (loop_body user_configuration 0
            (tick_log_unwritable 0 0 sixteen_ips 0) (fresh day1))
    = pre_log user_configuration (tick_log_unwritable 0 0 sixteen_ips 0) (fresh day1)
      ++ [Netstat; Print (MsgDanger (UniqueIpsOverLimit 16 15)); Print MsgShuttingDown].
Proof. split; [vm_compute; reflexivity|]. vm_compute. repeat split. Qed.

(** C1, counterexample: after a byte delta of 100 and one of -100 (the second
    counter read fails and yields 0) the daily total is 0, while the
    non-negative deltas sum to 100. *)
Lemma negative_delta_is_subtracted :
  same_day (fresh day1) run_with_failed_read /\
  deltas 0 run_with_failed_read = [100; -100] /\
  result_of (iterate user_configuration 0 run_with_failed_read (fresh day1)) = Return 0 /\
  daily_traffic_bytes
    (state_of (iterate user_configuration 0 run_with_failed_read (fresh day1))) = 0 /\
  sum_nonneg (deltas 0 run_with_failed_read) = 100 /\
  daily_traffic_bytes
    (state_of (iterate user_configuration 0 run_with_failed_read (fresh day1)))
    <> daily_traffic_bytes (fresh day1) + sum_nonneg (deltas 0 run_with_failed_read).
Proof.
  split; [repeat constructor|].
  vm_compute. repeat split. intros H. discriminate H.
Qed.

Lemma daily_total_is_signed_sum_witness :
  same_day (fresh day1) run_with_failed_read /\
  iterate user_configuration 0 run_with_failed_read (fresh day1)
    = (Return 0,
       state_of (iterate user_configuration 0 run_with_failed_read (fresh day1)),
       log_of (iterate user_configuration 0 run_with_failed_read (fresh day1))) /\
  daily_traffic_bytes
    (state_of (iterate user_configuration 0 run_with_failed_read (fresh day1)))
    = daily_traffic_bytes (fresh day1) + sum_all (deltas 0 run_with_failed_read).
Proof.
  assert (Hd : same_day (fresh day1) run_with_failed_read) by (repeat constructor).
  assert (Hr : iterate user_configuration 0 run_with_failed_read (fresh day1)
               = (Return 0,
                  state_of (iterate user_configuration 0 run_with_failed_read (fresh day1)),
                  log_of (iterate user_configuration 0 run_with_failed_read (fresh day1))))
    by (vm_compute; reflexivity).
  split; [exact Hd|]. split; [exact Hr|].
  exact (proj1 (daily_total_is_signed_sum _ _ _ _ _ _ _ Hd Hr)).
Defined.

Lemma sustained_overage_triggers_on_tick_D_witness :
  current_state (fresh day1) = NORMAL /\
  high_load_duration (fresh day1) = 0 /\
  Forall (fun x => exceeds user_configuration (snd x)) (replicate 9 (0%Q, 120%Q)) /\
  Z.of_nat (length (replicate 9 (0%Q, 120%Q))) = TRIGGER_DURATION user_configuration - 1 /\
  exceeds user_configuration (snd (0%Q, 120%Q)) /\
  current_state
    (state_of (feed user_configuration (replicate 9 (0%Q, 120%Q) ++ [(0%Q, 120%Q)])
                 (fresh day1))) = THROTTLED.
Proof.
  assert (Hall : Forall (fun x => exceeds user_configuration (snd x))
                   (replicate 9 (0%Q, 120%Q)))
    by (repeat constructor).
  assert (Hlen : Z.of_nat (length (replicate 9 (0%Q, 120%Q)))
                 = TRIGGER_DURATION user_configuration - 1) by reflexivity.
  assert (Hs : exceeds user_configuration (snd (0%Q, 120%Q))) by reflexivity.
  repeat (split; [first [reflexivity | assumption]|]).
  exact (proj1 (proj2 (proj2
    (sustained_overage_triggers_on_tick_D user_configuration (fresh day1)
       (replicate 9 (0%Q, 120%Q)) (0%Q, 120%Q) eq_refl eq_refl Hall Hlen)) Hs)).
Defined.

Lemma punishment_lasts_for_P_witness :
  current_state nine_seconds_high = NORMAL /\
  current_state
    (state_of (throttle_logic user_configuration 1000 120 nine_seconds_high)) = THROTTLED /\
  Forall (fun x => (fst x < 1000 + inject_Z (PUNISH_DURATION user_configuration))%Q)
    [(1001%Q, 500%Q); (1899%Q, 0%Q)] /\
  (1000 + inject_Z (PUNISH_DURATION user_configuration) <= fst (1900%Q, 500%Q))%Q /\
  current_state
    (state_of (feed user_configuration ([(1001%Q, 500%Q); (1899%Q, 0%Q)] ++ [(1900%Q, 500%Q)])
                 (state_of (throttle_logic user_configuration 1000 120 nine_seconds_high))))
    = NORMAL.
Proof.
  assert (Hall : Forall
            (fun x => (fst x < 1000 + inject_Z (PUNISH_DURATION user_configuration))%Q)
            [(1001%Q, 500%Q); (1899%Q, 0%Q)])
    by (repeat constructor).
  assert (Hend : (1000 + inject_Z (PUNISH_DURATION user_configuration)
                  <= fst (1900%Q, 500%Q))%Q)
    by (intros H; discriminate H).
  split; [reflexivity|]. split; [reflexivity|]. split; [exact Hall|]. split; [exact Hend|].
  exact (proj1 (proj2
    (punishment_lasts_for_P user_configuration nine_seconds_high 1000 120
       [(1001%Q, 500%Q); (1899%Q, 0%Q)] (1900%Q, 500%Q) eq_refl eq_refl Hall Hend))).
Defined.

(** C4, counterexample: with the counter at 9 and the tenth second above the
    threshold the machine enters THROTTLED and the counter is 10, not 0. *)
Lemma counter_survives_trigger :
  current_state nine_seconds_high = NORMAL /\
  exceeds user_configuration 120 /\
  current_state
    (state_of (throttle_logic user_configuration 1000 120 nine_seconds_high)) = THROTTLED /\
  high_load_duration
    (state_of (throttle_logic user_configuration 1000 120 nine_seconds_high)) = 10 /\
  high_load_duration
    (state_of (throttle_logic user_configuration 1000 120 nine_seconds_high)) <> 0.
Proof.
  vm_compute. repeat split. intros H. discriminate H.
Qed.

Lemma trigger_transition_actions_witness :
  current_state nine_seconds_high = NORMAL /\
  exceeds user_configuration 120 /\
  TRIGGER_DURATION user_configuration <= high_load_duration nine_seconds_high + 1 /\
  punish_end_time
    (state_of (throttle_logic user_configuration 1000 120 nine_seconds_high))
    = (1000 + inject_Z (PUNISH_DURATION user_configuration))%Q.
Proof.
  assert (Hd : TRIGGER_DURATION user_configuration
               <= high_load_duration nine_seconds_high + 1)
    by (intros H; discriminate H).
  split; [reflexivity|]. split; [reflexivity|]. split; [exact Hd|].
  exact (proj1 (proj2
    (trigger_transition_actions user_configuration nine_seconds_high 1000 120
       eq_refl eq_refl Hd))).
Defined.

Lemma date_rollover_resets_daily_record_witness :
  today first_tick_of_day2 <> last_check_date end_of_day1 /\
  daily_traffic_bytes
    (state_of (loop_body user_configuration 900 first_tick_of_day2 end_of_day1))
    = diff_traffic 900 first_tick_of_day2 /\
  daily_ips (state_of (loop_body user_configuration 900 first_tick_of_day2 end_of_day1))
    ⊆ list_to_set (sample_ips first_tick_of_day2).
Proof.
  assert (Hd : today first_tick_of_day2 <> last_check_date end_of_day1)
    by (intros H; discriminate H).
  split; [exact Hd|].
  pose proof (date_rollover_resets_daily_record user_configuration 900
                first_tick_of_day2 end_of_day1 Hd) as (_ & _ & Hb & Hi & _).
  split; [exact Hb|exact Hi].
Defined.

Lemma unique_count_is_union_cardinality_witness :
  same_day (fresh day1) run_with_failed_read /\
  iterate user_configuration 0 run_with_failed_read (fresh day1)
    = (Return 0,
       state_of (iterate user_configuration 0 run_with_failed_read (fresh day1)),
       log_of (iterate user_configuration 0 run_with_failed_read (fresh day1))) /\
  daily_ips (fresh day1) = ∅ /\
  size (daily_ips
          (state_of (iterate user_configuration 0 run_with_failed_read (fresh day1))))
    = size (observed_ips run_with_failed_read).
Proof.
  assert (Hd : same_day (fresh day1) run_with_failed_read) by (repeat constructor).
  assert (Hr : iterate user_configuration 0 run_with_failed_read (fresh day1)
               = (Return 0,
                  state_of (iterate user_configuration 0 run_with_failed_read (fresh day1)),
                  log_of (iterate user_configuration 0 run_with_failed_read (fresh day1))))
    by (vm_compute; reflexivity).
  split; [exact Hd|]. split; [exact Hr|]. split; [reflexivity|].
  exact (proj1 (proj2 (unique_count_is_union_cardinality _ _ _ _ _ _ _ Hd Hr)) eq_refl).
Defined.

(** Three distinct addresses were seen in the run above, one of them twice
    within a tick and one in both ticks. *)
Example run_with_failed_read_unique_count :
  size (daily_ips
          (state_of (iterate user_configuration 0 run_with_failed_read (fresh day1))))
    = 3%nat.
Proof. vm_compute. reflexivity. Qed.

(** ** Further properties of the loop *)

(** X2: an iteration that returns leaves a daily record within both limits:
    at most MAX_DAILY_UNIQUE_IPS addresses and at most MAX_DAILY_TRAFFIC
    times 2^30 bytes. *)
Theorem returned_iteration_within_limits cfg last inp self r self' log :
  loop_body cfg last inp self = (Return r, self', log) ->
  Z.of_nat (size (daily_ips self')) <= MAX_DAILY_UNIQUE_IPS cfg /\
  daily_traffic_bytes self' <= MAX_DAILY_TRAFFIC cfg * (1024 * 1024 * 1024).
Proof.
  intros H.
  pose proof (loop_body_return_daily _ _ _ _ _ _ _ H) as (Eb & Ei & _).
  destruct (loop_body_return_not_over _ _ _ _ _ _ _ H) as (Ht & Hi).
  rewrite Eb, Ei. split.
  - unfold ips_over, unique_count in Hi. lia.
  - unfold traffic_over, total_gb in Ht. apply Qnot_lt_le in Ht.
    unfold Qle in Ht. cbn in Ht. lia.
Qed.

Lemma returned_iteration_within_limits_witness :
  loop_body user_configuration 0 (tick_ok 60 40 ["10.0.0.1"] 1) (fresh day1)
    = (Return 100,
       state_of (loop_body user_configuration 0 (tick_ok 60 40 ["10.0.0.1"] 1) (fresh day1)),
       log_of (loop_body user_configuration 0 (tick_ok 60 40 ["10.0.0.1"] 1) (fresh day1))) /\
  Z.of_nat (size (daily_ips
     (state_of (loop_body user_configuration 0 (tick_ok 60 40 ["10.0.0.1"] 1) (fresh day1)))))
    <= MAX_DAILY_UNIQUE_IPS user_configuration.
Proof.
  assert (Hr : loop_body user_configuration 0 (tick_ok 60 40 ["10.0.0.1"] 1) (fresh day1)
    = (Return 100,
       state_of (loop_body user_configuration 0 (tick_ok 60 40 ["10.0.0.1"] 1) (fresh day1)),
       log_of (loop_body user_configuration 0 (tick_ok 60 40 ["10.0.0.1"] 1) (fresh day1))))
    by (vm_compute; reflexivity).
  split; [exact Hr|].
  exact (proj1 (returned_iteration_within_limits _ _ _ _ _ _ _ Hr)).
Defined.

Lemma iterate_returns_last_sample cfg inputs :
  forall last self r self' log,
  iterate cfg last inputs self = (Return r, self', log) ->
  sum_all (deltas last inputs) = r - last.
Proof.
  induction inputs as [|inp rest IH]; intros last self r self' log H.
  - cbn in H. injection H as <- <- <-. cbn. lia.
  - destruct (loop_body cfg last inp self) as [[[a|c|ex] s0] l0] eqn:E.
    + rewrite (iterate_cons_return _ _ _ _ _ _ _ _ E) in H.
      pose proof (loop_body_return _ _ _ _ _ _ _ E) as (-> & _ & _).
      destruct (iterate cfg (sample_traffic inp) rest s0) as [[r1 s1] l1] eqn:E1.
      cbn in H. injection H as -> -> <-.
      cbn [deltas sum_all fold_right]. fold (sum_all (deltas (sample_traffic inp) rest)).
      rewrite (IH _ _ _ _ _ E1). unfold diff_traffic. lia.
    + rewrite (iterate_cons_exit _ _ _ _ _ _ _ _ E) in H. discriminate H.
    + rewrite (iterate_cons_raise _ _ _ _ _ _ _ _ E) in H. discriminate H.
Qed.

(** X3: within one calendar day the daily total grows by the difference
    between the latest counter sample and the sample the run started from;
    samples in between (failed reads included) cancel out. *)
Theorem daily_total_tracks_counter cfg last inputs self r self' log :
  same_day self inputs ->
  iterate cfg last inputs self = (Return r, self', log) ->
  daily_traffic_bytes self' = daily_traffic_bytes self + (r - last).
Proof.
  intros Hday Hrun.
  destruct (iterate_same_day cfg inputs _ _ _ _ _ Hday Hrun) as (-> & _ & _).
  rewrite (iterate_returns_last_sample cfg inputs _ _ _ _ _ Hrun). reflexivity.
Qed.

Lemma daily_total_tracks_counter_witness :
  same_day (fresh day1) (run_with_failed_read ++ [tick_ok 300 200 [] 3]) /\
  iterate user_configuration 0 (run_with_failed_read ++ [tick_ok 300 200 [] 3]) (fresh day1)
    = (Return 500,
       state_of (iterate user_configuration 0
                   (run_with_failed_read ++ [tick_ok 300 200 [] 3]) (fresh day1)),
       log_of (iterate user_configuration 0
                 (run_with_failed_read ++ [tick_ok 300 200 [] 3]) (fresh day1))) /\
  daily_traffic_bytes
    (state_of (iterate user_configuration 0
                 (run_with_failed_read ++ [tick_ok 300 200 [] 3]) (fresh day1)))
    = daily_traffic_bytes (fresh day1) + (500 - 0).
Proof.
  assert (Hd : same_day (fresh day1) (run_with_failed_read ++ [tick_ok 300 200 [] 3]))
    by (repeat constructor).
  assert (Hr : iterate user_configuration 0
                 (run_with_failed_read ++ [tick_ok 300 200 [] 3]) (fresh day1)
    = (Return 500,
       state_of (iterate user_configuration 0
                   (run_with_failed_read ++ [tick_ok 300 200 [] 3]) (fresh day1)),
       log_of (iterate user_configuration 0
                 (run_with_failed_read ++ [tick_ok 300 200 [] 3]) (fresh day1))))
    by (vm_compute; reflexivity).
  split; [exact Hd|]. split; [exact Hr|].
  exact (daily_total_tracks_counter _ _ _ _ _ _ _ Hd Hr).
Defined.

(** ** The throttle fields across the loop *)

Lemma throttle_part_rolled d self : throttle_part (rolled d self) = throttle_part self.
Proof. unfold rolled. destruct (decide _); reflexivity. Qed.

Lemma throttle_part_accounted last inp self :
  throttle_part (accounted last inp self) = throttle_part self.
Proof. unfold accounted. apply (throttle_part_rolled (today inp) self). Qed.

Lemma throttle_part_observed last inp self :
  throttle_part (observed last inp self) = throttle_part self.
Proof. unfold observed. apply (throttle_part_accounted last inp self). Qed.

(** The throttle block reads and writes the throttle fields only. *)
Lemma throttle_logic_frame cfg now v self1 self2 :
  throttle_part self1 = throttle_part self2 ->
  throttle_part (state_of (throttle_logic cfg now v self1))
    = throttle_part (state_of (throttle_logic cfg now v self2)) /\
  log_of (throttle_logic cfg now v self1) = log_of (throttle_logic cfg now v self2).
Proof.
  unfold throttle_part. intros H. injection H as Hs Hh Hp.
  rewrite !throttle_logic_eq, Hs, Hh, Hp.
  destruct (current_state self2) eqn:Es.
  - destruct (Qgtb _ _); [destruct (_ >=? _)|]; cbn;
      rewrite ?Hs, ?Hh, ?Hp, ?Es; split; reflexivity.
  - destruct (Qle_bool _ _); cbn; rewrite ?Hs, ?Hh, ?Hp, ?Es; split; reflexivity.
Qed.

(** X5: the daily accounting never influences the throttle machine: after
    an iteration that returns, the throttle fields and the bandwidth commands
    are those the throttle block yields on the incoming object for the
    iteration's clock and rate. *)
Theorem throttle_independent_of_accounting cfg last inp self r self' log :
  loop_body cfg last inp self = (Return r, self', log) ->
  throttle_part self'
    = throttle_part (state_of (throttle_logic cfg (clock inp) (speed_mbps last inp) self)) /\
  log = pre_log cfg inp self ++ [Netstat] ++
        log_of (throttle_logic cfg (clock inp) (speed_mbps last inp) self).
Proof.
  intros H. apply loop_body_return in H as (_ & -> & ->).
  destruct (throttle_logic_frame cfg (clock inp) (speed_mbps last inp)
              (observed last inp self) self (throttle_part_observed last inp self))
    as [-> ->].
  split; reflexivity.
Qed.

Lemma throttle_independent_of_accounting_witness :
  loop_body user_configuration 0 (tick_ok 60 40 ["10.0.0.1"] 1) nine_seconds_high
    = (Return 100,
       state_of (loop_body user_configuration 0 (tick_ok 60 40 ["10.0.0.1"] 1)
                   nine_seconds_high),
       log_of (loop_body user_configuration 0 (tick_ok 60 40 ["10.0.0.1"] 1)
                 nine_seconds_high)) /\
  throttle_part
    (state_of (loop_body user_configuration 0 (tick_ok 60 40 ["10.0.0.1"] 1)
                 nine_seconds_high))
    = throttle_part
        (state_of (throttle_logic user_configuration
                     (clock (tick_ok 60 40 ["10.0.0.1"] 1))
                     (speed_mbps 0 (tick_ok 60 40 ["10.0.0.1"] 1)) nine_seconds_high)).
Proof.
  assert (Hr : loop_body user_configuration 0 (tick_ok 60 40 ["10.0.0.1"] 1)
                 nine_seconds_high
    = (Return 100,
       state_of (loop_body user_configuration 0 (tick_ok 60 40 ["10.0.0.1"] 1)
                   nine_seconds_high),
       log_of (loop_body user_configuration 0 (tick_ok 60 40 ["10.0.0.1"] 1)
                 nine_seconds_high)))
    by (vm_compute; reflexivity).
  split; [exact Hr|].
  exact (proj1 (throttle_independent_of_accounting _ _ _ _ _ _ _ Hr)).
Defined.

Lemma streak_in_range_part cfg self1 self2 :
  throttle_part self1 = throttle_part self2 ->
  streak_in_range cfg self2 -> streak_in_range cfg self1.
Proof.
  unfold throttle_part, streak_in_range. intros H. injection H as -> -> _. tauto.
Qed.

Lemma throttle_logic_streak cfg now v self :
  1 <= TRIGGER_DURATION cfg ->
  streak_in_range cfg self ->
  streak_in_range cfg (state_of (throttle_logic cfg now v self)).
Proof.
  intros HD [H0 Hn]. rewrite throttle_logic_eq. unfold streak_in_range.
  destruct (current_state self) eqn:Es.
  - specialize (Hn eq_refl).
    destruct (Qgtb _ _); [destruct (_ >=? _) eqn:Eg|]; cbn.
    + split; [lia|intros H; discriminate H].
    + rewrite Es. split; [lia|]. intros _.
      apply not_true_iff_false in Eg. rewrite Z.geb_le in Eg. lia.
    + rewrite Es. split; [lia|]. intros _. lia.
  - destruct (Qle_bool _ _); cbn.
    + split; [lia|]. intros _. lia.
    + rewrite Es. split; [exact H0|]. intros H; discriminate H.
Qed.

Lemma loop_body_throttle_part cfg last inp self :
  throttle_part (state_of (loop_body cfg last inp self)) = throttle_part self \/
  throttle_part (state_of (loop_body cfg last inp self))
    = throttle_part (state_of (throttle_logic cfg (clock inp) (speed_mbps last inp) self)).
Proof.
  destruct (loop_body_cases cfg last inp self)
    as [(_ & ->)|[(_ & _ & ->)|(_ & _ & ->)]]; cbn [state_of fst snd].
  - left. apply throttle_part_accounted.
  - left. apply throttle_part_observed.
  - right.
    exact (proj1 (throttle_logic_frame cfg (clock inp) (speed_mbps last inp)
                    (observed last inp self) self (throttle_part_observed last inp self))).
Qed.

(** A property kept by every iteration is kept by the loop. *)
Lemma iterate_invariant cfg (P : ServerGuardian -> Prop) :
  (forall last inp self, P self -> P (state_of (loop_body cfg last inp self))) ->
  forall inputs last self, P self -> P (state_of (iterate cfg last inputs self)).
Proof.
  intros Hstep. induction inputs as [|inp rest IH]; intros last self HP.
  - exact HP.
  - specialize (Hstep last inp self HP).
    destruct (loop_body cfg last inp self) as [[[a|c|ex] s0] l0] eqn:E.
    + rewrite (iterate_cons_return _ _ _ rest _ _ _ _ E). cbn [state_of fst snd].
      apply IH. exact Hstep.
    + rewrite (iterate_cons_exit _ _ _ rest _ _ _ _ E). exact Hstep.
    + rewrite (iterate_cons_raise _ _ _ rest _ _ _ _ E). exact Hstep.
Qed.

(** X6: with a trigger duration of at least one second, the overage counter
    stays in range throughout the loop: it is never negative, and while the
    machine is NORMAL it is below TRIGGER_DURATION. *)
Theorem streak_stays_in_range cfg last inputs self :
  1 <= TRIGGER_DURATION cfg ->
  streak_in_range cfg self ->
  streak_in_range cfg (state_of (iterate cfg last inputs self)).
Proof.
  intros HD. apply iterate_invariant. clear last self.
  intros last inp self HP.
  destruct (loop_body_throttle_part cfg last inp self) as [E|E].
  - exact (streak_in_range_part cfg _ _ E HP).
  - apply (streak_in_range_part cfg _ _ E).
    apply throttle_logic_streak; assumption.
Qed.

Lemma streak_stays_in_range_witness :
  1 <= TRIGGER_DURATION user_configuration /\
  streak_in_range user_configuration (fresh day1) /\
  streak_in_range user_configuration
    (state_of (iterate user_configuration 0 run_with_failed_read (fresh day1))).
Proof.
  assert (HD : 1 <= TRIGGER_DURATION user_configuration) by (intros H; discriminate H).
  assert (H0 : streak_in_range user_configuration (fresh day1)).
  { split; [intros H; discriminate H|intros _; reflexivity]. }
  split; [exact HD|]. split; [exact H0|].
  exact (streak_stays_in_range user_configuration 0 run_with_failed_read (fresh day1) HD H0).
Defined.

(** ** Start-up and the whole program *)

Lemma main_loop_eq cfg rx0 tx0 inputs self :
  main_loop cfg rx0 tx0 inputs self =
    (result_of (iterate cfg (baseline rx0 tx0) inputs self),
     state_of (iterate cfg (baseline rx0 tx0) inputs self),
     startup_log cfg rx0 tx0 ++ log_of (iterate cfg (baseline rx0 tx0) inputs self)).
Proof.
  unfold main_loop, init_iptables, set_tc_speed, get_current_traffic, run_cmd, print,
    emit, baseline, startup_log, tc_log, mbind, M_bind, mret, M_ret.
  destruct rx0 as [r0|], tx0 as [t0|]; cbn;
    match goal with
    | |- context [iterate cfg ?b inputs self] =>
        destruct (iterate cfg b inputs self) as [[[a|c|ex] s] l]; reflexivity
    end.
Qed.

Lemma init_privileged date_today self :
  __init__ 0 date_today self = (Return tt, fresh date_today, []).
Proof. reflexivity. Qed.

Lemma program_privileged cfg date_today rx0 tx0 inputs self :
  program cfg 0 date_today rx0 tx0 inputs self =
    (result_of (iterate cfg (baseline rx0 tx0) inputs (fresh date_today)),
     state_of (iterate cfg (baseline rx0 tx0) inputs (fresh date_today)),
     startup_log cfg rx0 tx0
       ++ log_of (iterate cfg (baseline rx0 tx0) inputs (fresh date_today))).
Proof.
  unfold program.
  rewrite (bind_return _ (fun _ => main_loop cfg rx0 tx0 inputs) _ _ _ _
             (init_privileged date_today self)).
  rewrite main_loop_eq. reflexivity.
Qed.

Lemma last_ceiling_app c l1 l2 :
  last_ceiling c (l1 ++ l2) = last_ceiling (last_ceiling c l1) l2.
Proof. unfold last_ceiling. apply fold_left_app. Qed.

Lemma last_ceiling_pre_log cfg inp self c :
  last_ceiling c (pre_log cfg inp self) = c.
Proof.
  unfold pre_log, reset_log, read_log.
  destruct (decide _), (rx inp), (tx inp); reflexivity.
Qed.

Lemma last_ceiling_throttle cfg now v self :
  last_ceiling (ceiling_of_state cfg self) (log_of (throttle_logic cfg now v self))
    = ceiling_of_state cfg (state_of (throttle_logic cfg now v self)).
Proof.
  rewrite throttle_logic_eq. unfold ceiling_of_state.
  destruct (current_state self) eqn:Es.
  - destruct (Qgtb _ _); [destruct (_ >=? _)|]; cbn; rewrite ?Es; reflexivity.
  - destruct (Qle_bool _ _); cbn; rewrite ?Es; reflexivity.
Qed.

Lemma ceiling_of_state_part cfg self1 self2 :
  throttle_part self1 = throttle_part self2 ->
  ceiling_of_state cfg self1 = ceiling_of_state cfg self2.
Proof.
  unfold throttle_part, ceiling_of_state. intros H. injection H as -> _ _. reflexivity.
Qed.

Lemma last_ceiling_loop_body cfg last inp self :
  last_ceiling (ceiling_of_state cfg self) (log_of (loop_body cfg last inp self))
    = ceiling_of_state cfg (state_of (loop_body cfg last inp self)).
Proof.
  destruct (loop_body_cases cfg last inp self)
    as [(_ & ->)|[(_ & _ & ->)|(_ & _ & ->)]]; cbn [state_of log_of fst snd];
    rewrite !last_ceiling_app, last_ceiling_pre_log.
  - destruct (log_append inp); cbn.
    + apply ceiling_of_state_part. symmetry. apply throttle_part_accounted.
    + apply ceiling_of_state_part. symmetry. apply throttle_part_accounted.
  - destruct (log_append inp); cbn.
    + apply ceiling_of_state_part. symmetry. apply throttle_part_observed.
    + apply ceiling_of_state_part. symmetry. apply throttle_part_observed.
  - change (last_ceiling (ceiling_of_state cfg self) [Netstat])
      with (ceiling_of_state cfg self).
    rewrite (ceiling_of_state_part cfg self (observed last inp self))
      by (symmetry; apply throttle_part_observed).
    apply last_ceiling_throttle.
Qed.

Lemma last_ceiling_iterate cfg inputs :
  forall last self,
  last_ceiling (ceiling_of_state cfg self) (log_of (iterate cfg last inputs self))
    = ceiling_of_state cfg (state_of (iterate cfg last inputs self)).
Proof.
  induction inputs as [|inp rest IH]; intros last self.
  - reflexivity.
  - pose proof (last_ceiling_loop_body cfg last inp self) as Hb.
    destruct (loop_body cfg last inp self) as [[[a|c|ex] s0] l0] eqn:E.
    + rewrite (iterate_cons_return _ _ _ rest _ _ _ _ E).
      cbn [state_of log_of fst snd] in Hb |- *.
      rewrite last_ceiling_app, Hb. apply IH.
    + rewrite (iterate_cons_exit _ _ _ rest _ _ _ _ E). exact Hb.
    + rewrite (iterate_cons_raise _ _ _ rest _ _ _ _ E). exact Hb.
Qed.

(** X7: in a privileged run of the program, the bandwidth ceiling last
    requested from tc always goes with the state of the throttle machine:
    MAX_SPEED_LIMIT while NORMAL, THROTTLE_SPEED_LIMIT while THROTTLED,
    whatever ceiling was installed before the start. *)
Theorem ceiling_matches_state cfg date_today rx0 tx0 inputs self c0 :
  last_ceiling c0 (log_of (program cfg 0 date_today rx0 tx0 inputs self))
    = ceiling_of_state cfg (state_of (program cfg 0 date_today rx0 tx0 inputs self)).
Proof.
  rewrite program_privileged. cbn [state_of log_of fst snd].
  rewrite last_ceiling_app.
  assert (Hs : last_ceiling c0 (startup_log cfg rx0 tx0)
               = ceiling_of_state cfg (fresh date_today)).
  { unfold startup_log. destruct rx0, tx0; reflexivity. }
  rewrite Hs. apply last_ceiling_iterate.
Qed.

Lemma iterate_exit_code cfg inputs :
  forall last self code,
  result_of (iterate cfg last inputs self) = SystemExit code -> code = 0.
Proof.
  induction inputs as [|inp rest IH]; intros last self code H.
  - discriminate H.
  - destruct (loop_body cfg last inp self) as [[[a|c|ex] s0] l0] eqn:E.
    + rewrite (iterate_cons_return _ _ _ rest _ _ _ _ E) in H.
      exact (IH _ _ _ H).
    + rewrite (iterate_cons_exit _ _ _ rest _ _ _ _ E) in H.
      cbn in H. injection H as Hc. subst c.
      destruct (loop_body_shutdown_counts cfg last inp self)
        as [(_ & H0 & _)|(Hn & _)]; rewrite E in *.
      * cbn in H0. injection H0 as ->. reflexivity.
      * exfalso. apply Hn. exact I.
    + rewrite (iterate_cons_raise _ _ _ rest _ _ _ _ E) in H. discriminate H.
Qed.

(** X10: when the counters cannot be read at start-up the baseline is 0, so
    the first iteration accounts the whole cumulative counter value as the
    traffic of its second. *)
Theorem failed_baseline_counts_whole_counter cfg date_today tx0 inp self r self' log :
  today inp = date_today ->
  program cfg 0 date_today None tx0 [inp] self = (Return r, self', log) ->
  daily_traffic_bytes self' = sample_traffic inp /\
  r = sample_traffic inp.
Proof.
  intros Hd H. rewrite program_privileged in H.
  change (baseline None tx0) with 0 in H.
  destruct (iterate cfg 0 [inp] (fresh date_today)) as [[r1 s1] l1] eqn:E.
  cbn in H. injection H as -> -> _.
  assert (Hday : same_day (fresh date_today) [inp]).
  { constructor; [exact Hd|constructor]. }
  destruct (iterate_same_day cfg [inp] _ _ _ _ _ Hday E) as (Eb & _ & _).
  pose proof (iterate_returns_last_sample cfg [inp] _ _ _ _ _ E) as Es.
  cbn in Eb, Es. unfold diff_traffic in *. split; lia.
Qed.

Lemma failed_baseline_counts_whole_counter_witness :
  today (tick_ok 600 400 [] 1) = day1 /\
  program user_configuration 0 day1 None (Some 5) [tick_ok 600 400 [] 1] (fresh day2)
    = (Return 1000,
       state_of (program user_configuration 0 day1 None (Some 5)
                   [tick_ok 600 400 [] 1] (fresh day2)),
       log_of (program user_configuration 0 day1 None (Some 5)
                 [tick_ok 600 400 [] 1] (fresh day2))) /\
  daily_traffic_bytes
    (state_of (program user_configuration 0 day1 None (Some 5)
                 [tick_ok 600 400 [] 1] (fresh day2)))
    = sample_traffic (tick_ok 600 400 [] 1).
Proof.
  assert (Hr : program user_configuration 0 day1 None (Some 5)
                 [tick_ok 600 400 [] 1] (fresh day2)
    = (Return 1000,
       state_of (program user_configuration 0 day1 None (Some 5)
                   [tick_ok 600 400 [] 1] (fresh day2)),
       log_of (program user_configuration 0 day1 None (Some 5)
                 [tick_ok 600 400 [] 1] (fresh day2))))
    by (vm_compute; reflexivity).
  split; [reflexivity|]. split; [exact Hr|].
  exact (proj1 (failed_baseline_counts_whole_counter user_configuration day1 (Some 5)
                  (tick_ok 600 400 [] 1) (fresh day2) _ _ _ eq_refl Hr)).
Defined.

(** ** Addresses and dates *)

Lemma sample_ips_nonempty inp : EmptyString ∉ sample_ips inp.
Proof.
  unfold sample_ips. destruct (netstat inp) as [ips|].
  - rewrite list_elem_of_In, filter_In. intros [_ H]. discriminate H.
  - apply not_elem_of_nil.
Qed.

Lemma loop_body_daily_ips cfg last inp self :
  daily_ips (state_of (loop_body cfg last inp self)) = daily_ips (rolled (today inp) self) \/
  daily_ips (state_of (loop_body cfg last inp self)) = unique_ips inp self.
Proof.
  destruct (loop_body_cases cfg last inp self)
    as [(_ & ->)|[(_ & _ & ->)|(_ & _ & ->)]]; cbn [state_of fst snd].
  - left. reflexivity.
  - right. reflexivity.
  - right.
    destruct (throttle_logic_daily cfg (clock inp) (speed_mbps last inp)
                (observed last inp self)) as (-> & _ & _).
    reflexivity.
Qed.

(** X11: the empty string is never recorded as an address: lines of the
    connection listing that are empty (as when nothing is connected) are
    dropped by [get_active_ips], so a record without it stays without it. *)
Theorem empty_address_never_recorded cfg last inputs self :
  EmptyString ∉ daily_ips self ->
  EmptyString ∉ daily_ips (state_of (iterate cfg last inputs self)).
Proof.
  apply (iterate_invariant cfg (fun s => EmptyString ∉ daily_ips s)).
  clear last self. intros last inp self HP.
  assert (Hr : EmptyString ∉ daily_ips (rolled (today inp) self)).
  { unfold rolled. destruct (decide _); [exact HP|]. cbn. apply not_elem_of_empty. }
  destruct (loop_body_daily_ips cfg last inp self) as [-> | ->]; [exact Hr|].
  unfold unique_ips. rewrite elem_of_union, elem_of_list_to_set.
  intros [H|H]; [exact (sample_ips_nonempty inp H)|exact (Hr H)].
Qed.

Lemma empty_address_never_recorded_witness :
  (EmptyString ∉ daily_ips (fresh day1)) /\
  (EmptyString ∉ daily_ips
     (state_of (iterate user_configuration 0 run_with_failed_read (fresh day1)))).
Proof.
  assert (H0 : EmptyString ∉ daily_ips (fresh day1)) by apply not_elem_of_empty.
  split; [exact H0|].
  exact (empty_address_never_recorded user_configuration 0 run_with_failed_read
           (fresh day1) H0).
Defined.

Lemma loop_body_date cfg last inp self :
  last_check_date (state_of (loop_body cfg last inp self)) = today inp.
Proof.
  assert (Hr : last_check_date (rolled (today inp) self) = today inp).
  { unfold rolled. destruct (decide _) as [e|n]; [symmetry; exact e|reflexivity]. }
  destruct (loop_body_cases cfg last inp self)
    as [(_ & ->)|[(_ & _ & ->)|(_ & _ & ->)]]; cbn [state_of fst snd].
  - exact Hr.
  - exact Hr.
  - destruct (throttle_logic_daily cfg (clock inp) (speed_mbps last inp)
                (observed last inp self)) as (_ & _ & ->).
    exact Hr.
Qed.

Lemma count_reset_loop_body cfg last inp self :
  count is_reset (log_of (loop_body cfg last inp self))
    = if decide (today inp = last_check_date self) then 0%nat else 1%nat.
Proof.
  assert (Hpre : count is_reset (pre_log cfg inp self)
                 = if decide (today inp = last_check_date self) then 0%nat else 1%nat).
  { unfold pre_log, reset_log, read_log.
    destruct (decide _), (rx inp), (tx inp); reflexivity. }
  assert (Hthr : forall s, count is_reset
             (log_of (throttle_logic cfg (clock inp) (speed_mbps last inp) s)) = 0%nat).
  { intros s. rewrite throttle_logic_eq. destruct (current_state s).
    - destruct (Qgtb _ _); [destruct (_ >=? _)|]; reflexivity.
    - destruct (Qle_bool _ _); reflexivity. }
  destruct (loop_body_cases cfg last inp self)
    as [(_ & ->)|[(_ & _ & ->)|(_ & _ & ->)]]; cbn [log_of snd];
    rewrite !count_app, Hpre, ?Hthr; destruct (log_append inp); cbn; lia.
Qed.

Lemma count_reset_same_day cfg inputs :
  forall last self,
  same_day self inputs ->
  count is_reset (log_of (iterate cfg last inputs self)) = 0%nat.
Proof.
  induction inputs as [|inp rest IH]; intros last self Hday.
  - reflexivity.
  - inversion Hday as [|? ? Hd Hday']; subst.
    pose proof (count_reset_loop_body cfg last inp self) as Hc.
    pose proof (loop_body_date cfg last inp self) as Hdate.
    destruct (decide (today inp = last_check_date self)); [|contradiction].
    destruct (loop_body cfg last inp self) as [[[a|c|ex] s0] l0] eqn:E.
    + rewrite (iterate_cons_return _ _ _ rest _ _ _ _ E).
      cbn [state_of log_of fst snd] in Hc, Hdate |- *.
      rewrite count_app, Hc. apply IH.
      unfold same_day in *. rewrite Hdate, Hd. exact Hday'.
    + rewrite (iterate_cons_exit _ _ _ rest _ _ _ _ E). exact Hc.
    + rewrite (iterate_cons_raise _ _ _ rest _ _ _ _ E). exact Hc.
Qed.

(** X12: the daily reset happens at most once per day: over iterations that
    all see the same date, the reset line is printed once, by the first
    iteration, if that date differs from the stored one, and not at all
    otherwise. *)
Theorem reset_once_per_day cfg last inp rest self :
  Forall (fun i => today i = today inp) rest ->
  count is_reset (log_of (iterate cfg last (inp :: rest) self))
    = if decide (today inp = last_check_date self) then 0%nat else 1%nat.
Proof.
  intros Hrest.
  pose proof (count_reset_loop_body cfg last inp self) as Hc.
  pose proof (loop_body_date cfg last inp self) as Hdate.
  destruct (loop_body cfg last inp self) as [[[a|c|ex] s0] l0] eqn:E.
  - rewrite (iterate_cons_return _ _ _ rest _ _ _ _ E).
    cbn [state_of log_of fst snd] in Hc, Hdate |- *.
    rewrite count_app, Hc, (count_reset_same_day cfg rest a s0).
    + lia.
    + unfold same_day. rewrite Hdate. exact Hrest.
  - rewrite (iterate_cons_exit _ _ _ rest _ _ _ _ E). exact Hc.
  - rewrite (iterate_cons_raise _ _ _ rest _ _ _ _ E). exact Hc.
Qed.

Lemma reset_once_per_day_witness :
  Forall (fun i => today i = today first_tick_of_day2) [first_tick_of_day2] /\
  count is_reset
    (log_of (iterate user_configuration 900 [first_tick_of_day2; first_tick_of_day2]
               end_of_day1))
    = 1%nat.
Proof.
  assert (H : Forall (fun i => today i = today first_tick_of_day2) [first_tick_of_day2])
    by (repeat constructor).
  split; [exact H|].
  exact (reset_once_per_day user_configuration 900 first_tick_of_day2
           [first_tick_of_day2] end_of_day1 H).
Defined.

(** ** More on the throttle machine *)

(** X13: the tick that ends a punishment does not look at the rate, so a new
    punishment needs a fresh streak: after the recovery tick and fewer than
    TRIGGER_DURATION further ticks, all above the threshold, the machine is
    still NORMAL, the counter equals the number of those ticks, and the only
    bandwidth command issued is the one restoring the normal ceiling. *)
Theorem recovery_restarts_streak cfg self (s : Q * Q) (highs : list (Q * Q)) :
  current_state self = THROTTLED ->
  (punish_end_time self <= fst s)%Q ->
  Forall (fun x => exceeds cfg (snd x)) highs ->
  Z.of_nat (length highs) < TRIGGER_DURATION cfg ->
  current_state (state_of (feed cfg (s :: highs) self)) = NORMAL /\
  high_load_duration (state_of (feed cfg (s :: highs) self)) = Z.of_nat (length highs) /\
  log_of (feed cfg (s :: highs) self)
    = Print MsgRecover :: tc_log cfg (MAX_SPEED_LIMIT cfg).
Proof.
  intros Ht Hend Hall Hlen.
  rewrite feed_cons. cbn [state_of log_of fst snd].
  rewrite throttle_logic_eq, Ht, (punishment_over _ _ Hend).
  cbn [state_of log_of fst snd].
  destruct (feed_highs cfg highs
              (set_high_load_duration 0 (set_current_state NORMAL self)))
    as [-> ->]; [reflexivity|exact Hall|cbn; lia|].
  cbn. repeat split.
Qed.

Lemma recovery_restarts_streak_witness :
  current_state throttled_until_1900 = THROTTLED /\
  (punish_end_time throttled_until_1900 <= fst (1900%Q, 500%Q))%Q /\
  Forall (fun x => exceeds user_configuration (snd x)) (replicate 9 (1901%Q, 500%Q)) /\
  Z.of_nat (length (replicate 9 (1901%Q, 500%Q))) < TRIGGER_DURATION user_configuration /\
  current_state
    (state_of (feed user_configuration ((1900%Q, 500%Q) :: replicate 9 (1901%Q, 500%Q))
                 throttled_until_1900)) = NORMAL.
Proof.
  assert (Hend : (punish_end_time throttled_until_1900 <= fst (1900%Q, 500%Q))%Q)
    by (intros H; discriminate H).
  assert (Hall : Forall (fun x => exceeds user_configuration (snd x))
                   (replicate 9 (1901%Q, 500%Q)))
    by (repeat constructor).
  assert (Hlen : Z.of_nat (length (replicate 9 (1901%Q, 500%Q)))
                 < TRIGGER_DURATION user_configuration) by reflexivity.
  split; [reflexivity|]. split; [exact Hend|]. split; [exact Hall|]. split; [exact Hlen|].
  exact (proj1 (recovery_restarts_streak user_configuration throttled_until_1900
                  (1900%Q, 500%Q) (replicate 9 (1901%Q, 500%Q)) eq_refl Hend Hall Hlen)).
Defined.

(** X14: in NORMAL, an iteration whose byte delta is not positive (the
    counters went backwards, or the read failed after a non-negative sample)
    ends the streak: with a non-negative TRIGGER_SPEED the counter is zero
    after it and the machine is still NORMAL. *)
Theorem non_positive_delta_ends_streak cfg last inp self r self' log :
  loop_body cfg last inp self = (Return r, self', log) ->
  current_state self = NORMAL ->
  0 <= TRIGGER_SPEED cfg ->
  diff_traffic last inp <= 0 ->
  current_state self' = NORMAL /\ high_load_duration self' = 0.
Proof.
  intros H Hn HT Hd. apply loop_body_return in H as (_ & -> & _).
  rewrite throttle_logic_eq.
  assert (Hs : current_state (observed last inp self) = NORMAL).
  { rewrite <- Hn.
    exact (f_equal (fun p => fst (fst p)) (throttle_part_observed last inp self)). }
  rewrite Hs.
  assert (E : Qgtb (speed_mbps last inp) (inject_Z (TRIGGER_SPEED cfg)) = false).
  { apply Qgtb_false. unfold speed_mbps, Qle. cbn. lia. }
  rewrite E. cbn. split; [exact Hs|reflexivity].
Qed.

Lemma non_positive_delta_ends_streak_witness :
  loop_body user_configuration 100 (tick_unreadable [] 2) nine_seconds_high
    = (Return 0,
       state_of (loop_body user_configuration 100 (tick_unreadable [] 2) nine_seconds_high),
       log_of (loop_body user_configuration 100 (tick_unreadable [] 2) nine_seconds_high)) /\
  current_state nine_seconds_high = NORMAL /\
  0 <= TRIGGER_SPEED user_configuration /\
  diff_traffic 100 (tick_unreadable [] 2) <= 0 /\
  high_load_duration
    (state_of (loop_body user_configuration 100 (tick_unreadable [] 2) nine_seconds_high))
    = 0.
Proof.
  assert (Hr : loop_body user_configuration 100 (tick_unreadable [] 2) nine_seconds_high
    = (Return 0,
       state_of (loop_body user_configuration 100 (tick_unreadable [] 2) nine_seconds_high),
       log_of (loop_body user_configuration 100 (tick_unreadable [] 2) nine_seconds_high)))
    by (vm_compute; reflexivity).
  assert (HT : 0 <= TRIGGER_SPEED user_configuration) by (intros H; discriminate H).
  assert (Hd : diff_traffic 100 (tick_unreadable [] 2) <= 0) by (intros H; discriminate H).
  split; [exact Hr|]. split; [reflexivity|]. split; [exact HT|]. split; [exact Hd|].
  exact (proj2 (non_positive_delta_ends_streak _ _ _ _ _ _ _ Hr eq_refl HT Hd)).
Defined.

(** ** Shape of a run *)

Lemma iterate_shutdown_exact cfg inputs :
  forall last self,
  (exited (result_of (iterate cfg last inputs self)) /\
   count is_shutdown_cmd (log_of (iterate cfg last inputs self)) = 1%nat /\
   count is_shutdown_entry (log_of (iterate cfg last inputs self)) = 1%nat /\
   exists before reason,
     log_of (iterate cfg last inputs self)
       = before ++ [AppendShutdownLog reason; RunCmd ShutdownNow])
  \/
  (~ exited (result_of (iterate cfg last inputs self)) /\
   count is_shutdown_cmd (log_of (iterate cfg last inputs self)) = 0%nat /\
   count is_shutdown_entry (log_of (iterate cfg last inputs self)) = 0%nat).
Proof.
  induction inputs as [|inp rest IH]; intros last self.
  - right. cbn. repeat split. intros [].
  - pose proof (loop_body_shutdown_counts cfg last inp self) as Hb.
    destruct (loop_body cfg last inp self) as [[[a|c|ex] s0] l0] eqn:E.
    + rewrite (iterate_cons_return _ _ _ rest _ _ _ _ E).
      cbn [result_of log_of fst snd] in Hb |- *.
      destruct Hb as [(Hx & _)|(_ & H1 & H2)]; [destruct Hx|].
      rewrite !count_app, H1, H2.
      destruct (IH a s0) as [(Hx & C1 & C2 & before & reason & C3)|(Hx & C1 & C2)].
      * left. split; [exact Hx|]. split; [exact C1|]. split; [exact C2|].
        exists (l0 ++ before), reason. rewrite C3, app_assoc. reflexivity.
      * right. split; [exact Hx|]. split; [exact C1|exact C2].
    + rewrite (iterate_cons_exit _ _ _ rest _ _ _ _ E).
      cbn [result_of log_of fst snd] in Hb |- *.
      destruct Hb as [(Hx & _ & H1 & H2 & H3)|(Hn & _)].
      * left. split; [exact Hx|]. split; [exact H2|]. split; [exact H1|exact H3].
      * exfalso. apply Hn. exact I.
    + rewrite (iterate_cons_raise _ _ _ rest _ _ _ _ E).
      cbn [result_of log_of fst snd] in Hb |- *.
      destruct Hb as [(Hx & _)|(Hn & H1 & H2)]; [destruct Hx|].
      right. split; [exact Hn|]. split; [exact H2|exact H1].
Qed.

(** X15: a run of the loop has reached [sys.exit] exactly when the shutdown
    command has been run: the log of a run that exited contains the command
    once, as its last entry, right after the single line appended to the
    shutdown log; the log of a run that is still going, or that ended in the
    uncaught [OSError] of a failed append, contains neither. *)
Theorem run_ends_with_shutdown cfg last inputs self :
  (exited (result_of (iterate cfg last inputs self))
     <-> count is_shutdown_cmd (log_of (iterate cfg last inputs self)) = 1%nat) /\
  (exited (result_of (iterate cfg last inputs self))
     <-> count is_shutdown_entry (log_of (iterate cfg last inputs self)) = 1%nat) /\
  (exited (result_of (iterate cfg last inputs self)) ->
     exists before reason,
       log_of (iterate cfg last inputs self)
         = before ++ [AppendShutdownLog reason; RunCmd ShutdownNow]) /\
  (raised (result_of (iterate cfg last inputs self)) ->
     count is_shutdown_cmd (log_of (iterate cfg last inputs self)) = 0%nat /\
     count is_shutdown_entry (log_of (iterate cfg last inputs self)) = 0%nat).
Proof.
  destruct (iterate_shutdown_exact cfg inputs last self)
    as [(Hx & C1 & C2 & H3)|(Hn & C1 & C2)].
  - split; [|split; [|split]]; [split; auto|split; auto|intros _; exact H3|].
    intros Hr. destruct (result_of (iterate cfg last inputs self)); contradiction.
  - rewrite C1, C2.
    split; [|split; [|split]]; [split|split| |];
      intros H; try contradiction; try discriminate H.
    split; reflexivity.
Qed.

Lemma count_pre_log_sleep cfg inp self :
  count is_sleep (pre_log cfg inp self) = 1%nat /\
  count is_rx_read (pre_log cfg inp self) = 1%nat /\
  count is_netstat (pre_log cfg inp self) = 0%nat.
Proof.
  unfold pre_log, reset_log, read_log.
  destruct (decide _), (rx inp), (tx inp); repeat split.
Qed.

Lemma count_throttle_quiet cfg now v self :
  count is_sleep (log_of (throttle_logic cfg now v self)) = 0%nat /\
  count is_rx_read (log_of (throttle_logic cfg now v self)) = 0%nat /\
  count is_netstat (log_of (throttle_logic cfg now v self)) = 0%nat.
Proof.
  rewrite throttle_logic_eq. destruct (current_state self).
  - destruct (Qgtb _ _); [destruct (_ >=? _)|]; repeat split.
  - destruct (Qle_bool _ _); repeat split.
Qed.

(** X16: every iteration that returns has slept exactly once, attempted
    exactly one read of the receive counter and listed the connections
    exactly once; a run of n such iterations has done each n times. *)
Theorem one_sample_per_iteration cfg inputs :
  forall last self r self' log,
  iterate cfg last inputs self = (Return r, self', log) ->
  count is_sleep log = length inputs /\
  count is_rx_read log = length inputs /\
  count is_netstat log = length inputs.
Proof.
  induction inputs as [|inp rest IH]; intros last self r self' log H.
  - cbn in H. injection H as <- <- <-. repeat split.
  - destruct (loop_body cfg last inp self) as [[[a|c|ex] s0] l0] eqn:E.
    + rewrite (iterate_cons_return _ _ _ rest _ _ _ _ E) in H.
      destruct (iterate cfg a rest s0) as [[r1 s1] l1] eqn:E1.
      cbn in H. injection H as -> -> <-.
      destruct (IH _ _ _ _ _ E1) as (I1 & I2 & I3).
      apply loop_body_return in E as (_ & _ & ->).
      destruct (count_pre_log_sleep cfg inp self) as (P1 & P2 & P3).
      destruct (count_throttle_quiet cfg (clock inp) (speed_mbps last inp)
                  (observed last inp self)) as (T1 & T2 & T3).
      rewrite !count_app, I1, I2, I3, P1, P2, P3, T1, T2, T3.
      cbn. repeat split.
    + rewrite (iterate_cons_exit _ _ _ rest _ _ _ _ E) in H. discriminate H.
    + rewrite (iterate_cons_raise _ _ _ rest _ _ _ _ E) in H. discriminate H.
Qed.

Lemma one_sample_per_iteration_witness :
  iterate user_configuration 0 run_with_failed_read (fresh day1)
    = (Return 0,
       state_of (iterate user_configuration 0 run_with_failed_read (fresh day1)),
       log_of (iterate user_configuration 0 run_with_failed_read (fresh day1))) /\
  count is_sleep (log_of (iterate user_configuration 0 run_with_failed_read (fresh day1)))
    = length run_with_failed_read.
Proof.
  assert (Hr : iterate user_configuration 0 run_with_failed_read (fresh day1)
               = (Return 0,
                  state_of (iterate user_configuration 0 run_with_failed_read (fresh day1)),
                  log_of (iterate user_configuration 0 run_with_failed_read (fresh day1))))
    by (vm_compute; reflexivity).
  split; [exact Hr|].
  exact (proj1 (one_sample_per_iteration user_configuration run_with_failed_read
                  _ _ _ _ _ Hr)).
Defined.

Lemma count_iptables_iterate cfg inputs :
  forall last self, count is_iptables (log_of (iterate cfg last inputs self)) = 0%nat.
Proof.
  assert (Hthr : forall now v s,
            count is_iptables (log_of (throttle_logic cfg now v s)) = 0%nat).
  { intros now v s. rewrite throttle_logic_eq. destruct (current_state s).
    - destruct (Qgtb _ _); [destruct (_ >=? _)|]; reflexivity.
    - destruct (Qle_bool _ _); reflexivity. }
  assert (Hbody : forall last inp self,
            count is_iptables (log_of (loop_body cfg last inp self)) = 0%nat).
  { intros last inp self.
    destruct (loop_body_cases cfg last inp self)
      as [(_ & ->)|[(_ & _ & ->)|(_ & _ & ->)]]; cbn [log_of snd];
      rewrite !count_app, count_pre_log, ?Hthr by reflexivity;
      destruct (log_append inp); reflexivity. }
  induction inputs as [|inp rest IH]; intros last self.
  - reflexivity.
  - specialize (Hbody last inp self).
    destruct (loop_body cfg last inp self) as [[[a|c|ex] s0] l0] eqn:E.
    + rewrite (iterate_cons_return _ _ _ rest _ _ _ _ E).
      cbn [log_of snd] in Hbody |- *. rewrite count_app, Hbody. apply IH.
    + rewrite (iterate_cons_exit _ _ _ rest _ _ _ _ E). exact Hbody.
    + rewrite (iterate_cons_raise _ _ _ rest _ _ _ _ E). exact Hbody.
Qed.

(** X17: the connection-limit rule is handled once, at start-up: a
    privileged run deletes the rule and then appends it, with the configured
    limit, before anything else is run, and the loop never touches iptables
    again, so the rule is not stacked however long the guardian runs. *)
Theorem connection_limit_installed_once cfg date_today rx0 tx0 inputs self :
  (exists rest,
     log_of (program cfg 0 date_today rx0 tx0 inputs self)
       = Print (MsgInitLimit (MAX_CONCURRENT_IPS cfg))
         :: RunCmd (IptablesDelete (MAX_CONCURRENT_IPS cfg))
         :: RunCmd (IptablesAppend (MAX_CONCURRENT_IPS cfg)) :: rest /\
     count is_iptables rest = 0%nat) /\
  count is_iptables (log_of (program cfg 0 date_today rx0 tx0 inputs self)) = 2%nat.
Proof.
  rewrite program_privileged. cbn [log_of snd].
  pose proof (count_iptables_iterate cfg inputs (baseline rx0 tx0) (fresh date_today)) as Hc.
  unfold startup_log. split.
  - eexists. split; [cbn [app]; reflexivity|].
    rewrite !count_app, Hc. destruct rx0, tx0; reflexivity.
  - rewrite !count_app, Hc. destruct rx0, tx0; reflexivity.
Qed.

Lemma iterate_since_rollover_witness :
  today first_tick_of_day2 <> last_check_date end_of_day1 /\
  Forall (fun inp => today inp = today first_tick_of_day2) [first_tick_of_day2] /\
  iterate user_configuration 900 [first_tick_of_day2; first_tick_of_day2] end_of_day1
    = (Return 1000,
       state_of (iterate user_configuration 900
                   [first_tick_of_day2; first_tick_of_day2] end_of_day1),
       log_of (iterate user_configuration 900
                 [first_tick_of_day2; first_tick_of_day2] end_of_day1)) /\
  daily_ips (state_of (iterate user_configuration 900
                         [first_tick_of_day2; first_tick_of_day2] end_of_day1))
    = observed_ips [first_tick_of_day2; first_tick_of_day2].
Proof.
  assert (Hd : today first_tick_of_day2 <> last_check_date end_of_day1)
    by (intros H; discriminate H).
  assert (Hrest : Forall (fun inp => today inp = today first_tick_of_day2)
                    [first_tick_of_day2]) by (repeat constructor).
  assert (Hr : iterate user_configuration 900
                 [first_tick_of_day2; first_tick_of_day2] end_of_day1
    = (Return 1000,
       state_of (iterate user_configuration 900
                   [first_tick_of_day2; first_tick_of_day2] end_of_day1),
       log_of (iterate user_configuration 900
                 [first_tick_of_day2; first_tick_of_day2] end_of_day1)))
    by (vm_compute; reflexivity).
  split; [exact Hd|]. split; [exact Hrest|]. split; [exact Hr|].
  exact (proj1 (proj2 (iterate_since_rollover user_configuration 900 first_tick_of_day2
                         [first_tick_of_day2] end_of_day1 _ _ _ Hd Hrest Hr))).
Defined.

(** ** Thresholds and exit paths *)

(** X4: the rate test of the loop, in bytes.  For a TRIGGER_SPEED between 0
    and 2^32 (where the float comparison of the script and its rational
    model agree), an iteration that starts in NORMAL and returns counts its
    second as overage exactly when the byte delta exceeds TRIGGER_SPEED times
    131072, a megabit being 2^20 bits: the counter then goes up by one;
    otherwise the counter is reset to zero and the machine stays NORMAL. *)
Theorem overage_threshold_in_bytes cfg last inp self r self' log :
  loop_body cfg last inp self = (Return r, self', log) ->
  current_state self = NORMAL ->
  0 <= TRIGGER_SPEED cfg < 2 ^ 32 ->
  (TRIGGER_SPEED cfg * 131072 < sample_traffic inp - last ->
     high_load_duration self' = high_load_duration self + 1) /\
  (sample_traffic inp - last <= TRIGGER_SPEED cfg * 131072 ->
     high_load_duration self' = 0 /\ current_state self' = NORMAL).
Proof.
  intros H Hn _. apply loop_body_return in H as (_ & -> & _).
  pose proof (throttle_part_observed last inp self) as Hp.
  assert (Hs : current_state (observed last inp self) = NORMAL).
  { rewrite <- Hn. exact (f_equal (fun p => fst (fst p)) Hp). }
  assert (Hh : high_load_duration (observed last inp self) = high_load_duration self).
  { exact (f_equal (fun p => snd (fst p)) Hp). }
  rewrite throttle_logic_eq, Hs, Hh. split.
  - intros Hhigh.
    assert (E : Qgtb (speed_mbps last inp) (inject_Z (TRIGGER_SPEED cfg)) = true).
    { apply Qgtb_true. unfold speed_mbps, diff_traffic, Qlt. cbn. lia. }
    rewrite E. destruct (_ >=? _); reflexivity.
  - intros Hlow.
    assert (E : Qgtb (speed_mbps last inp) (inject_Z (TRIGGER_SPEED cfg)) = false).
    { apply Qgtb_false. unfold speed_mbps, diff_traffic, Qle. cbn. lia. }
    rewrite E. cbn. split; [reflexivity|exact Hs].
Qed.

Lemma overage_threshold_in_bytes_witness :
  loop_body user_configuration 0 (tick_ok 13107200 1 [] 1) nine_seconds_high
    = (Return 13107201,
       state_of (loop_body user_configuration 0 (tick_ok 13107200 1 [] 1) nine_seconds_high),
       log_of (loop_body user_configuration 0 (tick_ok 13107200 1 [] 1) nine_seconds_high)) /\
  current_state nine_seconds_high = NORMAL /\
  0 <= TRIGGER_SPEED user_configuration < 2 ^ 32 /\
  TRIGGER_SPEED user_configuration * 131072
    < sample_traffic (tick_ok 13107200 1 [] 1) - 0 /\
  high_load_duration
    (state_of (loop_body user_configuration 0 (tick_ok 13107200 1 [] 1) nine_seconds_high))
    = high_load_duration nine_seconds_high + 1.
Proof.
  assert (Hr : loop_body user_configuration 0 (tick_ok 13107200 1 [] 1) nine_seconds_high
    = (Return 13107201,
       state_of (loop_body user_configuration 0 (tick_ok 13107200 1 [] 1) nine_seconds_high),
       log_of (loop_body user_configuration 0 (tick_ok 13107200 1 [] 1) nine_seconds_high)))
    by (vm_compute; reflexivity).
  assert (HT : 0 <= TRIGGER_SPEED user_configuration < 2 ^ 32).
  { split; [intros H; discriminate H|reflexivity]. }
  assert (Hhigh : TRIGGER_SPEED user_configuration * 131072
                  < sample_traffic (tick_ok 13107200 1 [] 1) - 0) by reflexivity.
  split; [exact Hr|]. split; [reflexivity|]. split; [exact HT|]. split; [exact Hhigh|].
  exact (proj1 (overage_threshold_in_bytes _ _ _ _ _ _ _ Hr eq_refl HT) Hhigh).
Defined.

Lemma count_startup_log cfg rx0 tx0 :
  count is_shutdown_cmd (startup_log cfg rx0 tx0) = 0%nat /\
  count is_shutdown_entry (startup_log cfg rx0 tx0) = 0%nat.
Proof. unfold startup_log. destruct rx0, tx0; split; reflexivity. Qed.

(** X9: how the program ends.  Started without root privilege it calls
    [sys.exit(1)] before any command is run, and this is the only way it
    reaches [sys.exit(1)].  Started with root privilege, every [sys.exit] it
    reaches has status 0 and comes after exactly one shutdown command; if it
    ends instead in the uncaught [OSError] of a failed append to the shutdown
    log, its exit status is 1 although no shutdown command and no log entry
    were produced. *)
Theorem program_exit_paths cfg euid date_today rx0 tx0 inputs self :
  (euid <> 0 ->
     program cfg euid date_today rx0 tx0 inputs self
       = (SystemExit 1, fresh date_today, [Print MsgNeedRoot])) /\
  (result_of (program cfg euid date_today rx0 tx0 inputs self) = SystemExit 1
     <-> euid <> 0) /\
  (euid = 0 ->
     forall code,
     result_of (program cfg euid date_today rx0 tx0 inputs self) = SystemExit code ->
     code = 0 /\
     count is_shutdown_cmd
       (log_of (program cfg euid date_today rx0 tx0 inputs self)) = 1%nat) /\
  (raised (result_of (program cfg euid date_today rx0 tx0 inputs self)) ->
     euid = 0 /\
     exit_status (result_of (program cfg euid date_today rx0 tx0 inputs self)) = Some 1 /\
     count is_shutdown_cmd
       (log_of (program cfg euid date_today rx0 tx0 inputs self)) = 0%nat /\
     count is_shutdown_entry
       (log_of (program cfg euid date_today rx0 tx0 inputs self)) = 0%nat).
Proof.
  destruct (Z.eq_dec euid 0) as [->|Hne].
  - rewrite program_privileged. cbn [result_of log_of fst snd].
    destruct (count_startup_log cfg rx0 tx0) as [S1 S2].
    pose proof (iterate_shutdown_exact cfg inputs (baseline rx0 tx0) (fresh date_today))
      as Hex.
    split; [intros H; contradiction|]. split; [|split].
    + split; [|intros H; contradiction].
      intros H. apply iterate_exit_code in H. discriminate H.
    + intros _ code H. split; [exact (iterate_exit_code _ _ _ _ _ H)|].
      rewrite count_app, S1.
      destruct Hex as [(_ & C1 & _)|(Hn & _)]; [exact C1|].
      exfalso. apply Hn. rewrite H. exact I.
    + intros Hr. split; [reflexivity|].
      rewrite !count_app, S1, S2.
      destruct (result_of (iterate cfg (baseline rx0 tx0) inputs (fresh date_today)))
        eqn:Er; try contradiction.
      split; [reflexivity|].
      destruct Hex as [(Hx & _)|(_ & C1 & C2)]; [destruct Hx|].
      rewrite C1, C2. split; reflexivity.
  - assert (E : program cfg euid date_today rx0 tx0 inputs self
                = (SystemExit 1, fresh date_today, [Print MsgNeedRoot])).
    { unfold program. apply bind_exit. apply init_unprivileged. exact Hne. }
    rewrite E. cbn [result_of log_of fst snd].
    split; [intros _; reflexivity|]. split; [|split].
    + split; [intros _; exact Hne|reflexivity].
    + intros H0. contradiction.
    + intros [].
Qed.
